(** * The HTTP executor of nuclei: redirect policy, client construction,
      calibration and the matcher/extractor pipeline

    A shallow embedding of [pkg/executor/executer_http.go].  Go values are
    modelled as follows: [int] as [Z], [string] as [string], [[]byte] as
    [list Byte.byte], a [*T] as an optional address into a store of [T]
    objects ([None] is the nil pointer), the [error] interface as an optional
    [error] ([None] is the nil error).  A nil dereference is a panic, which
    the embedding records as the outcome [Panic]. *)

From Stdlib Require Import ZArith String List Bool Lia.
From stdpp Require Import base list.
Import ListNotations.

Local Open Scope string_scope.
Local Open Scope list_scope.
Local Open Scope Z_scope.

(** ** Errors *)

(** Go [error] values: the sentinel [http.ErrUseLastResponse], an error
    reported by a collaborator, and [errors.Wrap(cause, msg)]. *)
Inductive error : Type :=
| ErrUseLastResponse
| External (msg : string)
| Wrap (cause : error) (msg : string).

(** ** Redirect policy *)

Section Redirects.

(** [*http.Request]; the policy only counts them. *)
Variable Request : Type.

(** [type checkRedirectFunc func(_ *http.Request, requests []*http.Request) error] *)
Definition checkRedirectFunc : Type := Request -> list Request -> option error.

(** [len(requests)] as a Go [int]. *)
Definition len {A : Type} (l : list A) : Z := Z.of_nat (length l).

Definition makeCheckRedirectFunc (followRedirects : bool) (maxRedirects : Z)
  : checkRedirectFunc :=
  fun _ requests =>
    if negb followRedirects then Some ErrUseLastResponse
    else if maxRedirects =? 0 then
      if len requests >? 10 then Some ErrUseLastResponse else None
    else if len requests >? maxRedirects then Some ErrUseLastResponse
    else None.

(** The number of redirects a policy lets through on a chain: the client
    consults the policy before each hop with the requests made so far
    (oldest first), and the hop is taken when the policy returns nil. *)
Fixpoint redirectsFollowed (check : checkRedirectFunc)
         (via : list Request) (hops : list Request) : nat :=
  match hops with
  | [] => O
  | next :: later =>
      match check next via with
      | Some _ => O
      | None => S (redirectsFollowed check (via ++ [next]) later)
      end
  end.

End Redirects.

Arguments makeCheckRedirectFunc {Request} followRedirects maxRedirects _ _.
Arguments redirectsFollowed {Request} check via hops.

(** ** Collaborating packages

    The executor consumes the request compiler, the matcher and extractor
    predicates and the HTTP client through their interfaces only.  Their
    opaque data is collected in [Types]; their operations in
    [Collaborators] below. *)

Class Types : Type := {
  Request : Type;        (* *retryablehttp.Request *)
  Header : Type;         (* http.Header *)
  MatcherRule : Type;    (* the fields of a matcher its predicate reads *)
  Extractor : Type;      (* *extractors.Extractor *)
  URL : Type;            (* url.URL *)
  Dialer : Type;         (* proxy.Dialer *)
  World : Type;          (* the network and the random source *)
}.

(** Package [matchers]: the declarations the executor refers to. *)
Module matchers.

Inductive Part : Type := BodyPart | HeaderPart | AllPart.

Inductive ConditionType : Type := ANDCondition | ORCondition.

(** [matchers.Matcher]: the fields the executor reads or writes, and the
    rule the predicate evaluates. *)
Record Matcher `{Types} : Type := {
  Type_ : string;
  part : Part;
  Target : string;
  Size : list Z;
  Status : list Z;
  rule : MatcherRule;
}.

Definition GetPart `{Types} (m : Matcher) : Part := part m.

Definition Part_eqb (a b : Part) : bool :=
  match a, b with
  | BodyPart, BodyPart | HeaderPart, HeaderPart | AllPart, AllPart => true
  | _, _ => false
  end.

Definition ConditionType_eqb (a b : ConditionType) : bool :=
  match a, b with
  | ANDCondition, ANDCondition | ORCondition, ORCondition => true
  | _, _ => false
  end.

End matchers.

(** Package [extractors]: its own response-part enumeration. *)
Module extractors.

Inductive Part : Type := BodyPart | HeaderPart | AllPart.

Definition Part_eqb (a b : Part) : bool :=
  match a, b with
  | BodyPart, BodyPart | HeaderPart, HeaderPart | AllPart, AllPart => true
  | _, _ => false
  end.

End extractors.

Import matchers.

(** A [*matchers.Matcher]: nil, or the address of a matcher object. *)
Definition ptr : Type := option nat.

(** [*http.Response] after the call: header, status and what
    [ioutil.ReadAll(resp.Body)] yields (data and error). *)
Record Response `{Types} : Type := {
  RespHeader : Header;
  StatusCode : Z;
  Body : list Byte.byte * option error;
}.

(** One call of [writeOutputHTTP(req, matcher, extractorResults)]. *)
Record Output `{Types} : Type := {
  outRequest : Request;
  outMatcher : ptr;
  outExtractorResults : list string;
}.

Class Collaborators `{Types} : Type := {
  (* matcher.Match(resp, body, headers) *)
  Match : Matcher -> Response -> string -> string -> bool;
  (* extractor.GetPart() *)
  ExtractorGetPart : Extractor -> extractors.Part;
  (* the matches ranged over from extractor.Extract(body, headers) *)
  Extract : Extractor -> string -> string -> list string;
  headersToString : Header -> string;
  (* e.httpRequest.MakeHTTPRequest(URL) *)
  MakeHTTPRequest : string -> list Request * option error;
  (* e.httpRequest.MakeHTTPRequestForAutoConfigure(URL, length) *)
  MakeHTTPRequestForAutoConfigure :
    string -> Z -> World -> (list Request * option error) * World;
  (* e.httpClient.Do(req) *)
  Do : Request -> World -> (option Response * option error) * World;
  (* url.Parse(rawurl): a URL and a nil error, or a nil URL and an error *)
  url_Parse : string -> URL + error;
  (* u.User.Username(), u.User.Password(), u.Hostname(), u.Port() *)
  url_Username : URL -> string;
  url_Password : URL -> string;
  url_Hostname : URL -> string;
  url_Port : URL -> string;
  (* proxy.SOCKS5("tcp", addr, auth, proxy.Direct) *)
  proxy_SOCKS5 : string -> option (string * string) -> option Dialer * option error;
}.

(** ** Executor state and the execution monad *)

(** The mutable state an executor run touches: the matcher objects and the
    request's [Matchers] slice over them, the world behind the client, and
    three logs: the requests handed to [httpClient.Do], the entries written
    by [writeOutputHTTP], and the number of [headersToString] calls. *)
Record State `{Types} : Type := {
  heap : list Matcher;
  Matchers : list ptr;
  Extractors : list Extractor;
  matchersCondition : ConditionType;
  world : World;
  sent : list Request;
  output : list Output;
  headerBuilds : nat;
}.

Inductive Outcome `{Types} (A : Type) : Type :=
| Done (a : A) (s : State)
| Panic (site : string) (s : State).

Arguments Done {_ A} a s.
Arguments Panic {_ A} site s.

Definition Exec `{Types} (A : Type) : Type := State -> Outcome A.

Definition ret `{Types} {A : Type} (a : A) : Exec A := fun s => Done a s.

Definition bind `{Types} {A B : Type} (c : Exec A) (k : A -> Exec B) : Exec B :=
  fun s =>
    match c s with
    | Done a s' => k a s'
    | Panic site s' => Panic site s'
    end.

Definition panic `{Types} {A : Type} (site : string) : Exec A :=
  fun s => Panic site s.

Declare Scope exec_scope.
Delimit Scope exec_scope with exec.
Notation "x <- c ;; k" := (bind c (fun x => k))
  (at level 100, c at next level, right associativity) : exec_scope.
Notation "c ;; k" := (bind c (fun _ => k))
  (at level 100, right associativity) : exec_scope.
Local Open Scope exec_scope.

(** The state reached, whatever the outcome. *)
Definition finalState `{Types} {A : Type} (o : Outcome A) : State :=
  match o with
  | Done _ s => s
  | Panic _ s => s
  end.

Section Primitives.

Context `{Collaborators}.

Definition setHeap (h : list Matcher) (s : State) : State :=
  {| heap := h; Matchers := Matchers s; Extractors := Extractors s;
     matchersCondition := matchersCondition s; world := world s;
     sent := sent s; output := output s; headerBuilds := headerBuilds s |}.

Definition setMatchers (ms : list ptr) (s : State) : State :=
  {| heap := heap s; Matchers := ms; Extractors := Extractors s;
     matchersCondition := matchersCondition s; world := world s;
     sent := sent s; output := output s; headerBuilds := headerBuilds s |}.

Definition setWorld (w : World) (s : State) : State :=
  {| heap := heap s; Matchers := Matchers s; Extractors := Extractors s;
     matchersCondition := matchersCondition s; world := w;
     sent := sent s; output := output s; headerBuilds := headerBuilds s |}.

Definition setSent (l : list Request) (s : State) : State :=
  {| heap := heap s; Matchers := Matchers s; Extractors := Extractors s;
     matchersCondition := matchersCondition s; world := world s;
     sent := l; output := output s; headerBuilds := headerBuilds s |}.

Definition setOutput (l : list Output) (s : State) : State :=
  {| heap := heap s; Matchers := Matchers s; Extractors := Extractors s;
     matchersCondition := matchersCondition s; world := world s;
     sent := sent s; output := l; headerBuilds := headerBuilds s |}.

Definition setHeaderBuilds (n : nat) (s : State) : State :=
  {| heap := heap s; Matchers := Matchers s; Extractors := Extractors s;
     matchersCondition := matchersCondition s; world := world s;
     sent := sent s; output := output s; headerBuilds := n |}.

(** Reading through a matcher pointer; nil panics at [site].  An address
    outside the store is not a pointer Go code can hold; it is treated as
    nil. *)
Definition load (p : ptr) (site : string) : Exec Matcher :=
  fun s =>
    match p with
    | Some a =>
        match heap s !! a with
        | Some m => Done m s
        | None => Panic site s
        end
    | None => Panic site s
    end.

(** Writing a field through a matcher pointer; nil panics at [site]. *)
Definition store (p : ptr) (f : Matcher -> Matcher) (site : string) : Exec unit :=
  fun s =>
    match p with
    | Some a =>
        match heap s !! a with
        | Some m => Done tt (setHeap (<[a := f m]> (heap s)) s)
        | None => Panic site s
        end
    | None => Panic site s
    end.

Definition withTarget (t : string) (m : Matcher) : Matcher :=
  {| Type_ := Type_ m; part := part m; Target := t; Size := Size m;
     Status := Status m; rule := rule m |}.

Definition withSize (l : list Z) (m : Matcher) : Matcher :=
  {| Type_ := Type_ m; part := part m; Target := Target m; Size := l;
     Status := Status m; rule := rule m |}.

Definition withStatus (l : list Z) (m : Matcher) : Matcher :=
  {| Type_ := Type_ m; part := part m; Target := Target m; Size := Size m;
     Status := l; rule := rule m |}.

Definition getMatchers : Exec (list ptr) := fun s => Done (Matchers s) s.

Definition getExtractors : Exec (list Extractor) := fun s => Done (Extractors s) s.

(** [e.httpRequest.GetMatchersCondition()] *)
Definition GetMatchersCondition : Exec ConditionType :=
  fun s => Done (matchersCondition s) s.

(** [e.httpRequest.Matchers = append(e.httpRequest.Matchers, m)] *)
Definition appendMatcher (m : ptr) : Exec unit :=
  fun s => Done tt (setMatchers (Matchers s ++ [m]) s).

(** [e.httpClient.Do(req)], logged in [sent].  Closing and draining a
    response body changes nothing of the state modelled here and is left
    out of the loops below. *)
Definition clientDo (req : Request) : Exec (option Response * option error) :=
  fun s =>
    let '(r, w) := Do req (world s) in
    Done r (setSent (sent s ++ [req]) (setWorld w s)).

Definition makeAutoConfigure (target : string) (n : Z)
  : Exec (list Request * option error) :=
  fun s =>
    let '(r, w) := MakeHTTPRequestForAutoConfigure target n (world s) in
    Done r (setWorld w s).

(** Modelled from the spec: [writeOutputHTTP] is defined in another file
    of the package; an emission is a side-effecting call into the output
    sink with the request, the optional triggering matcher and the
    optional extracted values.  Each call is logged in [output]. *)
Definition writeOutputHTTP (req : Request) (matcher : ptr)
           (extractorResults : list string) : Exec unit :=
  fun s =>
    Done tt (setOutput (output s ++
      [{| outRequest := req; outMatcher := matcher;
          outExtractorResults := extractorResults |}]) s).

(** [headersToString(resp.Header)], counted in [headerBuilds]. *)
Definition buildHeaders (resp : Response) : Exec string :=
  fun s =>
    Done (headersToString (RespHeader resp))
         (setHeaderBuilds (S (headerBuilds s)) s).

(** Modelled from the spec: [unsafeToString] is defined in another file of
    the package; it views the bytes of the body as a string, byte for
    byte, without copying. *)
Definition unsafeToString (data : list Byte.byte) : string :=
  string_of_list_byte data.

(** [len(body)] of a Go string. *)
Definition strlen (body : string) : Z := Z.of_nat (String.length body).

End Primitives.

(** ** Calibration: [ConfigureAutoType] *)

Section Calibration.

Context `{Collaborators}.

(** The loop over [m.Size] that precedes the append:
    [for _, size := range m.Size { if size == len(body) { continue } }].
    Its [continue] goes to the next size; the loop computes nothing. *)
Fixpoint skipDuplicateSizes (sizes : list Z) (n : Z) : unit :=
  match sizes with
  | [] => tt
  | size :: rest =>
      if size =? n then skipDuplicateSizes rest n
      else skipDuplicateSizes rest n
  end.

(** [for _, req := range compiledConfigRequest { ... }], for the
    calibration matcher [m].  [Some err] is the function's early return. *)
Fixpoint probeLoop (m : ptr) (reqs : list Request) : Exec (option error) :=
  match reqs with
  | [] => ret None
  | req :: rest =>
      r <- clientDo req ;;
      match r with
      | (_, Some err) => ret (Some (Wrap err "could not make http request"))
      | (None, None) => panic "resp.Body"
      | (Some resp, None) =>
          match Body resp with
          | (_, Some err) => ret (Some (Wrap err "could not read http body"))
          | (data, None) =>
              let body := unsafeToString data in
              mv <- load m "m.Size" ;;
              let _ := skipDuplicateSizes (Size mv) (strlen body) in
              store m (fun x => withSize (Size x ++ [strlen body]) x) "m.Size" ;;
              store m (fun x => withStatus (Status x ++ [StatusCode resp]) x)
                    "m.Status" ;;
              probeLoop m rest
          end
      end
  end.

(** [for _, matcher := range e.httpRequest.Matchers { ... }]; the slice
    ranged over is the one held when the loop starts. *)
Fixpoint autoLoop (target : string) (compiledConfigRequest : list Request)
         (ms : list ptr) : Exec (option error) :=
  match ms with
  | [] => ret None
  | p :: rest =>
      matcher <- load p "matcher.Type" ;;
      if String.eqb (Type_ matcher) "auto" then
        (* var m *matchers.Matcher *)
        let m : ptr := None in
        store m (withTarget target) "m.Target" ;;
        appendMatcher m ;;
        r <- probeLoop m compiledConfigRequest ;;
        match r with
        | Some err => ret (Some err)
        | None => autoLoop target compiledConfigRequest rest
        end
      else autoLoop target compiledConfigRequest rest
  end.

Definition ConfigureAutoType (target : string) : Exec (option error) :=
  r16 <- makeAutoConfigure target 16 ;;
  let '(compiledConfigRequest, err) := r16 in
  r32 <- makeAutoConfigure target 32 ;;
  let '(compiledConfigRequest, err) := r32 in
  match err with
  | Some e => ret (Some (Wrap e "could not make auto configure http request"))
  | None =>
      ms <- getMatchers ;;
      autoLoop target compiledConfigRequest ms
  end.

End Calibration.

(** ** Execution: [ExecuteHTTP] *)

(** How the loop over the matchers is left: by [continue mainLoop], or by
    running off its end with the header text built so far. *)
Inductive LoopExit : Type :=
| ContinueMainLoop
| FellThrough (headers : string).

Section Execution.

Context `{Collaborators}.

(** [part == matchers.AllPart || part == matchers.HeaderPart && headers == ""];
    in Go, as here, [&&] binds tighter than [||]. *)
Definition matcherWantsHeaders (p : matchers.Part) (headers : string) : bool :=
  matchers.Part_eqb p matchers.AllPart
  || matchers.Part_eqb p matchers.HeaderPart && String.eqb headers "".

(** [part == extractors.AllPart || part == extractors.HeaderPart && headers == ""] *)
Definition extractorWantsHeaders (p : extractors.Part) (headers : string) : bool :=
  extractors.Part_eqb p extractors.AllPart
  || extractors.Part_eqb p extractors.HeaderPart && String.eqb headers "".

(** [for _, matcher := range e.httpRequest.Matchers { ... }] *)
Fixpoint matcherLoop (target : string) (req : Request) (resp : Response)
         (body : string) (matcherCondition : ConditionType)
         (ms : list ptr) (headers : string) : Exec LoopExit :=
  match ms with
  | [] => ret (FellThrough headers)
  | p :: rest =>
      matcher <- load p "matcher.Target" ;;
      if negb (String.eqb (Target matcher) "")
         && negb (String.eqb (Target matcher) target)
      then matcherLoop target req resp body matcherCondition rest headers
      else
        let part := GetPart matcher in
        headers <- (if matcherWantsHeaders part headers
                    then buildHeaders resp else ret headers) ;;
        if negb (Match matcher resp body headers) then
          if ConditionType_eqb matcherCondition ANDCondition
          then ret ContinueMainLoop
          else matcherLoop target req resp body matcherCondition rest headers
        else
          es <- getExtractors ;;
          (if ConditionType_eqb matcherCondition ORCondition && (len es =? 0)
           then writeOutputHTTP req p []
           else ret tt) ;;
          matcherLoop target req resp body matcherCondition rest headers
  end.

(** [for _, extractor := range e.httpRequest.Extractors { ... }],
    accumulating [extractorResults]. *)
Fixpoint extractorLoop (resp : Response) (body : string)
         (es : list Extractor) (headers : string)
         (extractorResults : list string) : Exec (list string) :=
  match es with
  | [] => ret extractorResults
  | extractor :: rest =>
      let part := ExtractorGetPart extractor in
      headers <- (if extractorWantsHeaders part headers
                  then buildHeaders resp else ret headers) ;;
      extractorLoop resp body rest headers
                    (extractorResults ++ Extract extractor body headers)
  end.

(** The body of [mainLoop] once the response body has been read. *)
Definition evalResponse (target : string) (req : Request) (resp : Response)
           (body : string) : Exec unit :=
  let headers := "" in
  matcherCondition <- GetMatchersCondition ;;
  ms <- getMatchers ;;
  exit <- matcherLoop target req resp body matcherCondition ms headers ;;
  match exit with
  | ContinueMainLoop => ret tt
  | FellThrough headers =>
      es <- getExtractors ;;
      extractorResults <- extractorLoop resp body es headers [] ;;
      es <- getExtractors ;;
      if (len es >? 0) || ConditionType_eqb matcherCondition ANDCondition
      then writeOutputHTTP req None extractorResults
      else ret tt
  end.

(** [mainLoop: for _, req := range compiledRequest { ... }] *)
Fixpoint mainLoop (target : string) (reqs : list Request) : Exec (option error) :=
  match reqs with
  | [] => ret None
  | req :: rest =>
      r <- clientDo req ;;
      match r with
      | (_, Some err) => ret (Some (Wrap err "could not make http request"))
      | (None, None) => panic "resp.Body"
      | (Some resp, None) =>
          match Body resp with
          | (_, Some err) => ret (Some (Wrap err "could not read http body"))
          | (data, None) =>
              let body := unsafeToString data in
              evalResponse target req resp body ;;
              mainLoop target rest
          end
      end
  end.

Definition ExecuteHTTP (target : string) : Exec (option error) :=
  let '(compiledRequest, err) := MakeHTTPRequest target in
  match err with
  | Some e => ret (Some (Wrap e "could not make http request"))
  | None =>
      ConfigureAutoType target ;;
      mainLoop target compiledRequest
  end.

End Execution.

(** ** Client construction: [NewHTTPExecutor] and [makeHTTPClient] *)

(** The fields of [requests.HTTPRequest] the client factory reads. *)
Record HTTPRequestConfig : Type := {
  Redirects : bool;
  MaxRedirects : Z;
}.

Record HTTPOptions : Type := {
  HTTPRequest : HTTPRequestConfig;
  Timeout : Z;
  Retries : Z;
  ProxyURL : string;
  ProxySocksURL : string;
}.

Inductive RetryPolicy : Type := DefaultRetryPolicy | HostSprayRetryPolicy.

(** [tls.RenegotiationSupport] *)
Inductive RenegotiationSupport : Type :=
| RenegotiateNever
| RenegotiateOnceAsClient
| RenegotiateFreelyAsClient.

(** [http.Transport]: [Dial] is [None] for the direct dial, [Proxy] is
    [None] when no forward proxy is installed. *)
Record Transport `{Types} : Type := {
  MaxIdleConnsPerHost : Z;
  Renegotiation : RenegotiationSupport;
  InsecureSkipVerify : bool;
  DisableKeepAlives : bool;
  Dial : option Dialer;
  Proxy : option URL;
}.

(** [time.Duration]: a signed 64-bit count of nanoseconds; arithmetic on it
    wraps around. *)
Definition wrapInt64 (z : Z) : Z := (z + 2 ^ 63) mod 2 ^ 64 - 2 ^ 63.

(** [time.Second] *)
Definition Second : Z := 1000000000.

(** [time.Duration(n) * time.Second] *)
Definition seconds (n : Z) : Z := wrapInt64 (wrapInt64 n * Second).

(** [retryablehttp.Client] over an [http.Client]; the durations are
    [time.Duration] values. *)
Record Client `{Types} : Type := {
  transport : Transport;
  clientTimeout : Z;
  CheckRedirect : checkRedirectFunc Request;
  RetryWaitMax : Z;
  RetryMax : Z;
  CheckRetry : RetryPolicy;
}.

(** [HTTPExecutor]: the client; the template, the request, the writer and
    its mutex are the ones of the options and of [State]. *)
Record HTTPExecutor `{Types} : Type := {
  httpClient : Client;
}.

(** The result of a construction that may panic. *)
Inductive Construction (A : Type) : Type :=
| Built (a : A)
| Crashed (site : string).

Arguments Built {A} a.
Arguments Crashed {A} site.

Definition andThen {A B : Type} (c : Construction A) (k : A -> Construction B)
  : Construction B :=
  match c with
  | Built a => k a
  | Crashed site => Crashed site
  end.

Section ClientFactory.

Context `{Collaborators}.

(** The two results of [url.Parse]: the URL pointer and the error. *)
Definition parsedURL (r : URL + error) : option URL :=
  match r with inl u => Some u | inr _ => None end.

Definition parseError (r : URL + error) : option error :=
  match r with inl _ => None | inr e => Some e end.

(** Calling a method of [*url.URL] that reads the URL; nil panics. *)
Definition urlField (u : option URL) (f : URL -> string) (site : string)
  : Construction string :=
  match u with
  | Some v => Built (f v)
  | None => Crashed site
  end.

Definition withDial (d : Dialer) (t : Transport) : Transport :=
  {| MaxIdleConnsPerHost := MaxIdleConnsPerHost t;
     Renegotiation := Renegotiation t;
     InsecureSkipVerify := InsecureSkipVerify t;
     DisableKeepAlives := DisableKeepAlives t;
     Dial := Some d; Proxy := Proxy t |}.

Definition withProxy (u : URL) (t : Transport) : Transport :=
  {| MaxIdleConnsPerHost := MaxIdleConnsPerHost t;
     Renegotiation := Renegotiation t;
     InsecureSkipVerify := InsecureSkipVerify t;
     DisableKeepAlives := DisableKeepAlives t;
     Dial := Dial t; Proxy := Some u |}.

(** [if options.ProxySocksURL != "" { ... }]: the attempt to replace the
    dial function by the SOCKS5 one. *)
Definition installSocks (options : HTTPOptions) (t : Transport)
  : Construction Transport :=
  if negb (String.eqb (ProxySocksURL options) "") then
    let parsed := url_Parse (ProxySocksURL options) in
    let socksURL := parsedURL parsed in
    let err := parseError parsed in
    andThen
      (match err with
       | None =>
           andThen (urlField socksURL url_Username "socksURL.User") (fun user =>
           andThen (urlField socksURL url_Password "socksURL.User") (fun password =>
           Built (Some (user, password))))
       | Some _ => Built None
       end) (fun proxyAuth =>
    andThen (urlField socksURL url_Hostname "socksURL.Hostname()") (fun host =>
    andThen (urlField socksURL url_Port "socksURL.Port()") (fun port =>
    let '(dialer, err) := proxy_SOCKS5 (host ++ ":" ++ port)%string proxyAuth in
    match err with
    | None =>
        match dialer with
        | Some d => Built (withDial d t)
        | None => Crashed "dialer.Dial"
        end
    | Some _ => Built t
    end)))
  else Built t.

Definition makeHTTPClient (proxyURL : option URL) (options : HTTPOptions)
  : Construction Client :=
  let followRedirects := Redirects (HTTPRequest options) in
  let maxRedirects := MaxRedirects (HTTPRequest options) in
  let t := {| MaxIdleConnsPerHost := -1;
            Renegotiation := RenegotiateOnceAsClient; InsecureSkipVerify := true;
              DisableKeepAlives := true; Dial := None; Proxy := None |} in
  andThen (installSocks options t) (fun t =>
  let t := match proxyURL with
           | Some u => withProxy u t
           | None => t
           end in
  Built {| transport := t;
           clientTimeout := seconds (Timeout options);
           CheckRedirect := makeCheckRedirectFunc followRedirects maxRedirects;
           RetryWaitMax := seconds 10;
           RetryMax := Retries options;
           CheckRetry := DefaultRetryPolicy |}).

Definition withCheckRetry (p : RetryPolicy) (c : Client) : Client :=
  {| transport := transport c; clientTimeout := clientTimeout c;
     CheckRedirect := CheckRedirect c; RetryWaitMax := RetryWaitMax c;
     RetryMax := RetryMax c; CheckRetry := p |}.

Definition NewHTTPExecutor (options : HTTPOptions)
  : Construction (option HTTPExecutor * option error) :=
  let '(proxyURL, err) :=
    if negb (String.eqb (ProxyURL options) "")
    then (parsedURL (url_Parse (ProxyURL options)),
          parseError (url_Parse (ProxyURL options)))
    else (None, None) in
  match err with
  | Some e => Built (None, Some e)
  | None =>
      andThen (makeHTTPClient proxyURL options) (fun client =>
      let client := withCheckRetry HostSprayRetryPolicy client in
      Built (Some {| httpClient := client |}, None))
  end.

End ClientFactory.

(** ** Vocabulary of the specification *)

Section Vocabulary.

Context `{Collaborators}.

(** The matcher objects behind a slice of pointers, when none is nil. *)
Fixpoint resolve (h : list Matcher) (ms : list ptr) : option (list (ptr * Matcher)) :=
  match ms with
  | [] => Some []
  | p :: rest =>
      match p with
      | Some a =>
          match h !! a, resolve h rest with
          | Some m, Some l => Some ((p, m) :: l)
          | _, _ => None
          end
      | None => None
      end
  end.

(** A matcher applies to a URL when its target filter is unset or equals
    the URL. *)
Definition applicable (target : string) (pm : ptr * Matcher) : bool :=
  String.eqb (Target (snd pm)) "" || String.eqb (Target (snd pm)) target.

Definition isAuto (pm : ptr * Matcher) : bool :=
  String.eqb (Type_ (snd pm)) "auto".

(** The header text each matcher of a list is handed, in order, when the
    text built so far is [current] and the full text is [full]. *)
Fixpoint headersSeen (full current : string) (ms : list (ptr * Matcher))
  : list (ptr * Matcher * string) :=
  match ms with
  | [] => []
  | pm :: rest =>
      let h := if matcherWantsHeaders (GetPart (snd pm)) current
               then full else current in
      (pm, h) :: headersSeen full h rest
  end.

(** What a matcher returns on (response, body, headers). *)
Definition verdict (resp : Response) (body : string)
           (x : ptr * Matcher * string) : bool :=
  Match (snd (fst x)) resp body (snd x).

(** The emission caused by one matcher, and the consolidated one. *)
Definition matcherOutput (req : Request) (x : ptr * Matcher * string) : Output :=
  {| outRequest := req; outMatcher := fst (fst x); outExtractorResults := [] |}.

Definition consolidatedOutput (req : Request) (results : list string) : Output :=
  {| outRequest := req; outMatcher := None; outExtractorResults := results |}.

Definition isConsolidated (o : Output) : bool :=
  match outMatcher o with
  | None => true
  | Some _ => false
  end.

(** The state in which a response is evaluated: after [Do] sent [req]. *)
Definition afterDo (req : Request) (w : World) (s : State) : State :=
  setSent (sent s ++ [req]) (setWorld w s).

(** The state after the header text was asked for: one more build when
    the part wants it. *)
Definition headerState (wants : bool) (s : State) : State :=
  if wants then setHeaderBuilds (S (headerBuilds s)) s else s.

(** The header text each extractor of a list is handed, in order, when the
    text built so far is [current] and the full text is [full]. *)
Fixpoint extractorsSeen (full current : string) (es : list Extractor)
  : list (Extractor * string) :=
  match es with
  | [] => []
  | e :: rest =>
      let h := if extractorWantsHeaders (ExtractorGetPart e) current
               then full else current in
      (e, h) :: extractorsSeen full h rest
  end.

(** The builds a header text stands for: none while it is still empty. *)
Definition builtOnce (headers : string) : nat :=
  if String.eqb headers "" then O else 1%nat.

Definition matcherPartIs (p : matchers.Part) (pm : ptr * Matcher) : bool :=
  matchers.Part_eqb (GetPart (snd pm)) p.

Definition extractorPartIs (p : extractors.Part) (e : Extractor) : bool :=
  extractors.Part_eqb (ExtractorGetPart e) p.

(** How the error [e] reports the failure of the request [req] sent in the
    world [w]: the client's own error wrapped as a failure to make the
    request, or, when the client answered, the error of reading the body
    wrapped as a failure to read it. *)
Definition stepFailure (req : Request) (w : World) (e : error) : Prop :=
  (exists cause,
      snd (fst (Do req w)) = Some cause /\
      e = Wrap cause "could not make http request") \/
  (exists resp data cause,
      fst (Do req w) = (Some resp, None) /\
      Body resp = (data, Some cause) /\
      e = Wrap cause "could not read http body").

(** Two states that differ in the output and header-build logs at most. *)
Definition frame (s s' : State) : Prop :=
  heap s' = heap s /\ Matchers s' = Matchers s /\
  Extractors s' = Extractors s /\
  matchersCondition s' = matchersCondition s /\
  world s' = world s /\ sent s' = sent s.

End Vocabulary.

(** ** A small concrete world

    Requests are their URLs, headers their text; a matcher of type
    ["status"] passes on a listed status code, any other matcher passes when
    its rule is the body; an extractor carries its part and its matches.
    Every request is answered 200 with a five-byte body. *)

#[local] Instance sampleTypes : Types := {|
  Request := string;
  Header := string;
  MatcherRule := string;
  Extractor := extractors.Part * list string;
  URL := string;
  Dialer := string;
  World := nat;
|}.

Definition sampleResponse : Response :=
  {| RespHeader := "Server: test";
     StatusCode := 200;
     Body := (list_byte_of_string "hello", None) |}.

#[local] Instance sampleCollaborators : Collaborators := {|
  Match := fun m resp body headers =>
    if String.eqb (Type_ m) "status"
    then existsb (Z.eqb (StatusCode resp)) (Status m)
    else String.eqb (rule m) body;
  ExtractorGetPart := fst;
  Extract := fun e _ _ => snd e;
  headersToString := fun h => h;
  MakeHTTPRequest := fun u => ([u], None);
  MakeHTTPRequestForAutoConfigure := fun u n w =>
    (([String.append u (if n =? 16 then "/token16" else "/token32")], None), S w);
  Do := fun _ w => ((Some sampleResponse, None), w);
  url_Parse := fun s =>
    if String.prefix ":" s
    then inr (External "missing protocol scheme")
    else inl s;
  url_Username := fun _ => "";
  url_Password := fun _ => "";
  url_Hostname := fun u => u;
  url_Port := fun _ => "1080";
  proxy_SOCKS5 := fun addr _ => (Some addr, None);
|}.

Definition sampleMatcher (type : string) (p : matchers.Part) (r : string) : Matcher :=
  {| Type_ := type; part := p; Target := ""; Size := []; Status := [200]; rule := r |}.

Definition sampleState (h : list Matcher) (ms : list ptr)
           (es : list Extractor) (c : ConditionType) : State :=
  {| heap := h; Matchers := ms; Extractors := es; matchersCondition := c;
     world := O; sent := []; output := []; headerBuilds := O |}.

(** The same world with faults: the request to ["http://t/down"] times out,
    the body of ["http://t/cut"] cannot be read, the 32-character
    calibration request does not compile, no request compiles for the
    empty target and the SOCKS5 dialer cannot be built. *)
Definition faultyCollaborators : Collaborators := {|
  Match := fun m resp body headers =>
    if String.eqb (Type_ m) "status"
    then existsb (Z.eqb (StatusCode resp)) (Status m)
    else String.eqb (rule m) body;
  ExtractorGetPart := fst;
  Extract := fun e _ _ => snd e;
  headersToString := fun h => h;
  MakeHTTPRequest := fun u =>
    if String.eqb u "" then ([], Some (External "empty target"))
    else ([String.append u "/a"; String.append u "/down"; String.append u "/b"], None);
  MakeHTTPRequestForAutoConfigure := fun u n w =>
    (if n =? 16 then ([String.append u "/token16"], None)
     else ([], Some (External "no template")), S w);
  Do := fun req w =>
    (if String.eqb req "http://t/down" then (None, Some (External "timeout"))
     else if String.eqb req "http://t/cut"
     then (Some {| RespHeader := "Server: test"; StatusCode := 200;
                   Body := ([], Some (External "unexpected EOF")) |}, None)
     else (Some sampleResponse, None), w);
  url_Parse := fun s =>
    if String.prefix ":" s
    then inr (External "missing protocol scheme")
    else inl s;
  url_Username := fun _ => "user";
  url_Password := fun _ => "secret";
  url_Hostname := fun u => u;
  url_Port := fun _ => "1080";
  proxy_SOCKS5 := fun _ _ => (None, Some (External "unknown network"));
|}.

(** * Properties *)

(** ** Redirect policy *)

Section RedirectFacts.

Context {Request : Type}.

Lemma len_app_one (l : list Request) (x : Request) : len (l ++ [x]) = len l + 1.
Proof. unfold len. rewrite length_app. simpl. lia. Qed.

Lemma check_follow_nil (maxRedirects : Z) (req : Request) (via : list Request) :
  makeCheckRedirectFunc true maxRedirects req via = None <->
  len via <= (if maxRedirects =? 0 then 10 else maxRedirects).
Proof.
  unfold makeCheckRedirectFunc. simpl.
  destruct (maxRedirects =? 0).
  - destruct (Z.gtb_spec (len via) 10); split; intros; try discriminate; try lia; reflexivity.
  - destruct (Z.gtb_spec (len via) maxRedirects); split; intros;
      try discriminate; try lia; reflexivity.
Qed.

Lemma redirectsFollowed_count (maxRedirects : Z) (hops via : list Request) :
  redirectsFollowed (makeCheckRedirectFunc true maxRedirects) via hops =
  Nat.min (length hops)
          (Z.to_nat ((if maxRedirects =? 0 then 10 else maxRedirects) - len via + 1)).
Proof.
  revert via. induction hops as [|next later IH]; intros via.
  - reflexivity.
  - cbn [redirectsFollowed length].
    destruct (makeCheckRedirectFunc true maxRedirects next via) eqn:E.
    + assert (~ len via <= (if maxRedirects =? 0 then 10 else maxRedirects)) as Hgt.
      { intros Hle. apply check_follow_nil with (req := next) in Hle. congruence. }
      replace (Z.to_nat ((if maxRedirects =? 0 then 10 else maxRedirects) - len via + 1))
        with O by lia.
      lia.
    + apply check_follow_nil in E. rewrite IH, len_app_one. lia.
Qed.

End RedirectFacts.

(** C3. The redirect decision depends on the follow flag, the maximum and
    the number of requests made so far only.  With redirects disabled the
    policy stops whatever the count.  Otherwise it continues exactly while
    the count is at most the limit, which is 10 when the maximum is 0 and
    the maximum itself when not; every stop is [ErrUseLastResponse]; on a
    chain of redirects it therefore follows none when disabled, and as many
    hops as the limit allows when enabled. *)
Theorem redirect_policy {Request : Type} (followRedirects : bool) (maxRedirects : Z)
        (req req' : Request) (via via' hops : list Request) :
  let limit := if maxRedirects =? 0 then 10 else maxRedirects in
  (length via = length via' ->
   makeCheckRedirectFunc followRedirects maxRedirects req via =
   makeCheckRedirectFunc followRedirects maxRedirects req' via') /\
  makeCheckRedirectFunc false maxRedirects req via = Some ErrUseLastResponse /\
  (makeCheckRedirectFunc true maxRedirects req via = None <-> len via <= limit) /\
  (makeCheckRedirectFunc true maxRedirects req via = Some ErrUseLastResponse <->
   len via > limit) /\
  redirectsFollowed (makeCheckRedirectFunc false maxRedirects) [req] hops = O /\
  redirectsFollowed (makeCheckRedirectFunc true maxRedirects) [req] hops =
    Nat.min (length hops) (Z.to_nat limit).
Proof.
  intros limit. subst limit.
  split; [|split; [|split; [|split; [|split]]]].
  - intros Hlen. unfold makeCheckRedirectFunc, len. rewrite Hlen. reflexivity.
  - reflexivity.
  - apply check_follow_nil.
  - split.
    + intros Hstop. apply Z.lt_gt, Z.nle_gt. intros Hle.
      apply (check_follow_nil maxRedirects req via) in Hle. congruence.
    + intros Hgt.
      destruct (makeCheckRedirectFunc true maxRedirects req via) as [e|] eqn:E.
      * unfold makeCheckRedirectFunc in E. simpl in E.
        destruct (maxRedirects =? 0);
          [destruct (len via >? 10) | destruct (len via >? maxRedirects)];
          congruence.
      * apply check_follow_nil in E. lia.
  - destruct hops; reflexivity.
  - rewrite redirectsFollowed_count. unfold len. simpl length.
    f_equal. lia.
Qed.

(** Scenario F: twelve hops, redirects followed, no explicit maximum: the
    client follows ten. *)
Example redirect_chain_of_twelve :
  redirectsFollowed (makeCheckRedirectFunc true 0) ["r0"]
    ["r1"; "r2"; "r3"; "r4"; "r5"; "r6"; "r7"; "r8"; "r9"; "r10"; "r11"; "r12"] = 10%nat.
Proof. reflexivity. Qed.

(** ** Calibration *)

Section CalibrationFacts.

Context `{Collaborators}.

(** Assigning through the nil matcher pointer panics, in every state. *)
Lemma store_nil (f : Matcher -> Matcher) (site : string) (s : State) :
  store None f site s = Panic site s.
Proof. reflexivity. Qed.

Lemma load_resolved (h : list Matcher) (p : ptr) (ms : list ptr)
      (vs : list (ptr * Matcher)) (site : string) (s : State) :
  heap s = h ->
  resolve h (p :: ms) = Some vs ->
  exists m rest, vs = (p, m) :: rest /\ resolve h ms = Some rest /\
                 load p site s = Done m s.
Proof.
  intros Hh Hres. simpl in Hres.
  destruct p as [a|]; [|discriminate].
  destruct (h !! a) as [m|] eqn:Ha; [|discriminate].
  destruct (resolve h ms) as [rest|]; [|discriminate].
  injection Hres as <-. exists m, rest. repeat split.
  unfold load. rewrite Hh, Ha. reflexivity.
Qed.

(** The loop over the matchers never gets past its first "auto" matcher:
    whatever the outcome, the state is the one it started in. *)
Lemma autoLoop_state (target : string) (reqs : list Request) (ms : list ptr)
      (s : State) :
  finalState (autoLoop target reqs ms s) = s.
Proof.
  induction ms as [|p rest IH]; [reflexivity|].
  cbn [autoLoop]. unfold bind at 1.
  unfold load. destruct p as [a|]; [|reflexivity].
  destruct (heap s !! a) as [m|]; [|reflexivity].
  destruct (String.eqb (Type_ m) "auto"); [reflexivity|apply IH].
Qed.

Lemma autoLoop_without_auto (target : string) (reqs : list Request)
      (ms : list ptr) (vs : list (ptr * Matcher)) (s : State) :
  resolve (heap s) ms = Some vs ->
  existsb isAuto vs = false ->
  autoLoop target reqs ms s = Done None s.
Proof.
  revert vs. induction ms as [|p rest IH]; intros vs Hres Hno; [reflexivity|].
  destruct (load_resolved (heap s) p rest vs "matcher.Type" s eq_refl Hres)
    as (m & l & -> & Hrest & Hload).
  cbn [autoLoop]. unfold bind at 1. rewrite Hload.
  simpl in Hno. apply orb_false_iff in Hno as [Hm Hl].
  unfold isAuto in Hm. simpl in Hm. rewrite Hm. eapply IH; eassumption.
Qed.

Lemma autoLoop_with_auto (target : string) (reqs : list Request)
      (ms : list ptr) (vs : list (ptr * Matcher)) (s : State) :
  resolve (heap s) ms = Some vs ->
  existsb isAuto vs = true ->
  autoLoop target reqs ms s = Panic "m.Target" s.
Proof.
  revert vs. induction ms as [|p rest IH]; intros vs Hres Hex.
  - injection Hres as <-. discriminate.
  - destruct (load_resolved (heap s) p rest vs "matcher.Type" s eq_refl Hres)
      as (m & l & -> & Hrest & Hload).
    cbn [autoLoop]. unfold bind at 1. rewrite Hload.
    simpl in Hex. unfold isAuto at 1 in Hex. simpl in Hex.
    destruct (String.eqb (Type_ m) "auto"); [reflexivity|].
    eapply IH; eassumption.
Qed.

(** [ConfigureAutoType] in terms of its two compilations and its loop:
    the requests of the first compilation are not used. *)
Lemma ConfigureAutoType_unfold (target : string) (s : State) :
  let '(r16, w16) := MakeHTTPRequestForAutoConfigure target 16 (world s) in
  let '(r32, w32) := MakeHTTPRequestForAutoConfigure target 32 w16 in
  ConfigureAutoType target s =
  match snd r32 with
  | Some e =>
      Done (Some (Wrap e "could not make auto configure http request"))
           (setWorld w32 s)
  | None => autoLoop target (fst r32) (Matchers s) (setWorld w32 s)
  end.
Proof.
  unfold ConfigureAutoType, bind, makeAutoConfigure.
  destruct (MakeHTTPRequestForAutoConfigure target 16 (world s)) as [[l16 e16] w16].
  cbn [world setWorld].
  destruct (MakeHTTPRequestForAutoConfigure target 32 w16) as [[l32 e32] w32].
  destruct e32; reflexivity.
Qed.

End CalibrationFacts.

(** C9, as the code has it.  When the request has a matcher of type
    "auto", [ConfigureAutoType] builds the calibration matcher through the
    nil pointer [m]: the assignment [m.Target = URL] panics in every state.
    The function reaches it whenever the 32-character calibration request
    compiles, and returns the wrapped compilation error before it when it
    does not; in neither case is a matcher allocated, appended to the
    matchers or changed, or a request sent. *)
Theorem calibration_matcher_nil_dereference `{Collaborators}
        (target : string) (s : State) (vs : list (ptr * Matcher)) :
  let r16 := MakeHTTPRequestForAutoConfigure target 16 (world s) in
  let r32 := MakeHTTPRequestForAutoConfigure target 32 (snd r16) in
  resolve (heap s) (Matchers s) = Some vs ->
  existsb isAuto vs = true ->
  (forall (f : Matcher -> Matcher) (s0 : State),
      store None f "m.Target" s0 = Panic "m.Target" s0) /\
  ConfigureAutoType target s =
    match snd (fst r32) with
    | None => Panic "m.Target" (setWorld (snd r32) s)
    | Some e =>
        Done (Some (Wrap e "could not make auto configure http request"))
             (setWorld (snd r32) s)
    end /\
  Matchers (finalState (ConfigureAutoType target s)) = Matchers s /\
  heap (finalState (ConfigureAutoType target s)) = heap s /\
  sent (finalState (ConfigureAutoType target s)) = sent s.
Proof.
  intros r16 r32 Hres Hauto.
  assert (ConfigureAutoType target s =
          match snd (fst r32) with
          | None => Panic "m.Target" (setWorld (snd r32) s)
          | Some e =>
              Done (Some (Wrap e "could not make auto configure http request"))
                   (setWorld (snd r32) s)
          end) as E.
  { pose proof (ConfigureAutoType_unfold target s) as U.
    subst r16 r32.
    destruct (MakeHTTPRequestForAutoConfigure target 16 (world s)) as [x16 w16].
    cbn [snd] in *.
    destruct (MakeHTTPRequestForAutoConfigure target 32 w16) as [x32 w32].
    cbn [fst snd] in *. rewrite U.
    destruct (snd x32); [reflexivity|].
    eapply autoLoop_with_auto; [exact Hres | exact Hauto]. }
  split; [intros; reflexivity|].
  split; [exact E|].
  rewrite E. destruct (snd (fst r32)); repeat split.
Qed.

(** C10. When no matcher is of type "auto" and the calibration requests
    compile, [ConfigureAutoType] returns nil, sends no request and leaves
    the matchers and every matcher object as they were. *)
Theorem calibration_without_auto_is_noop `{Collaborators}
        (target : string) (s : State) (vs : list (ptr * Matcher)) :
  let r16 := MakeHTTPRequestForAutoConfigure target 16 (world s) in
  let r32 := MakeHTTPRequestForAutoConfigure target 32 (snd r16) in
  resolve (heap s) (Matchers s) = Some vs ->
  existsb isAuto vs = false ->
  snd (fst r32) = None ->
  ConfigureAutoType target s = Done None (setWorld (snd r32) s) /\
  sent (finalState (ConfigureAutoType target s)) = sent s /\
  Matchers (finalState (ConfigureAutoType target s)) = Matchers s /\
  heap (finalState (ConfigureAutoType target s)) = heap s /\
  resolve (heap (finalState (ConfigureAutoType target s)))
          (Matchers (finalState (ConfigureAutoType target s))) = Some vs.
Proof.
  intros r16 r32 Hres Hauto Hok.
  assert (ConfigureAutoType target s = Done None (setWorld (snd r32) s)) as E.
  { pose proof (ConfigureAutoType_unfold target s) as U.
    subst r16 r32.
    destruct (MakeHTTPRequestForAutoConfigure target 16 (world s)) as [x16 w16].
    cbn [snd] in *.
    destruct (MakeHTTPRequestForAutoConfigure target 32 w16) as [x32 w32].
    cbn [fst snd] in *. rewrite U, Hok.
    eapply autoLoop_without_auto; [exact Hres | exact Hauto]. }
  rewrite E. repeat split. exact Hres.
Qed.

(** C7. [ConfigureAutoType] hands no request to the client, whatever the
    two compilations return and whatever the matchers are: the requests
    compiled for the 16-character token are dropped when the second
    compilation overwrites them, and the loop that would send the others
    is not reached. *)
Theorem calibration_sends_no_probe `{Collaborators} (target : string) (s : State) :
  sent (finalState (ConfigureAutoType target s)) = sent s.
Proof.
  pose proof (ConfigureAutoType_unfold target s) as U.
  destruct (MakeHTTPRequestForAutoConfigure target 16 (world s)) as [x16 w16].
  destruct (MakeHTTPRequestForAutoConfigure target 32 w16) as [x32 w32].
  rewrite U. destruct (snd x32); [reflexivity|].
  rewrite autoLoop_state. reflexivity.
Qed.


(** One round of the probe loop for an allocated calibration matcher, a
    state [ConfigureAutoType] itself never reaches: the body length is
    appended to the sizes although it is already among them, and the status
    code is appended with it. *)
Theorem calibration_appends_duplicate_size `{Collaborators}
        (a : nat) (mv : Matcher) (req : Request) (resp : Response)
        (data : list Byte.byte) (w : World) (s : State) :
  heap s !! a = Some mv ->
  Do req (world s) = ((Some resp, None), w) ->
  Body resp = (data, None) ->
  In (strlen (unsafeToString data)) (Size mv) ->
  exists s',
    probeLoop (Some a) [req] s = Done None s' /\
    heap s' !! a =
      Some (withStatus (Status mv ++ [StatusCode resp])
              (withSize (Size mv ++ [strlen (unsafeToString data)]) mv)) /\
    ~ NoDup (Size mv ++ [strlen (unsafeToString data)]).
Proof.
  intros Ha HDo HBody Hdup.
  pose proof (lookup_lt_Some _ _ _ Ha) as Hlt.
  eexists. split; [|split].
  - cbn [probeLoop]. unfold bind, clientDo. rewrite HDo, HBody.
    unfold load, store. cbn [heap setSent setWorld setHeap].
    rewrite Ha. cbn [heap setSent setWorld setHeap].
    rewrite Ha. cbn [heap setSent setWorld setHeap].
    rewrite list_lookup_insert_eq by exact Hlt.
    reflexivity.
  - cbn [heap setHeap]. rewrite list_lookup_insert_eq.
    + reflexivity.
    + rewrite length_insert. exact Hlt.
  - intros Hnd. apply NoDup_app in Hnd as (_ & Hdisjoint & _).
    apply (Hdisjoint (strlen (unsafeToString data))).
    + apply list_elem_of_In. exact Hdup.
    + apply list_elem_of_In. left. reflexivity.
Qed.

(** ** Evaluation of a response *)

Section EvaluationFacts.

Context `{Collaborators}.

Lemma frame_refl (s : State) : frame s s.
Proof. repeat split. Qed.

Lemma frame_trans (s1 s2 s3 : State) : frame s1 s2 -> frame s2 s3 -> frame s1 s3.
Proof.
  unfold frame. intros (?&?&?&?&?&?) (?&?&?&?&?&?).
  repeat split; congruence.
Qed.

Lemma frame_setHeaderBuilds (n : nat) (s : State) : frame s (setHeaderBuilds n s).
Proof. repeat split. Qed.

Lemma frame_setOutput (l : list Output) (s : State) : frame s (setOutput l s).
Proof. repeat split. Qed.

Lemma frame_headerState (wants : bool) (s : State) : frame s (headerState wants s).
Proof. destruct wants; repeat split. Qed.

Lemma output_headerState (wants : bool) (s : State) :
  output (headerState wants s) = output s.
Proof. destruct wants; reflexivity. Qed.

Lemma skip_is_not_applicable (target : string) (p : ptr) (m : Matcher) :
  negb (String.eqb (Target m) "") && negb (String.eqb (Target m) target) =
  negb (applicable target (p, m)).
Proof. unfold applicable. simpl. rewrite negb_orb. reflexivity. Qed.

(** One round of the loop over the matchers, for a matcher that is there. *)
Lemma matcherLoop_cons (target : string) (req : Request) (resp : Response)
      (body : string) (c : ConditionType) (p : ptr) (m : Matcher)
      (rest : list ptr) (headers : string) (s : State) :
  load p "matcher.Target" s = Done m s ->
  matcherLoop target req resp body c (p :: rest) headers s =
  if applicable target (p, m) then
    let wants := matcherWantsHeaders (GetPart m) headers in
    let h := if wants then headersToString (RespHeader resp) else headers in
    let s1 := headerState wants s in
    if Match m resp body h then
      matcherLoop target req resp body c rest h
        (if ConditionType_eqb c ORCondition && (len (Extractors s1) =? 0)
         then setOutput (output s1 ++ [matcherOutput req (p, m, h)]) s1
         else s1)
    else if ConditionType_eqb c ANDCondition then Done ContinueMainLoop s1
         else matcherLoop target req resp body c rest h s1
  else matcherLoop target req resp body c rest headers s.
Proof.
  intros Hload. cbn [matcherLoop]. unfold bind at 1. rewrite Hload.
  rewrite (skip_is_not_applicable target p m).
  destruct (applicable target (p, m)); [|reflexivity].
  cbn [negb]. cbv zeta.
  destruct (matcherWantsHeaders (GetPart m) headers);
    unfold bind at 1; cbn [buildHeaders ret headerState];
    (destruct (Match m resp body _); cbn [negb];
     [ unfold bind, getExtractors, writeOutputHTTP, ret, matcherOutput;
       cbn [fst snd Extractors setHeaderBuilds];
       destruct (ConditionType_eqb c ORCondition); cbn [andb];
       [ destruct (len (Extractors s) =? 0) | ]; reflexivity
     | destruct (ConditionType_eqb c ANDCondition); reflexivity ]).
Qed.

(** The loop over the matchers changes the two logs only, whatever its
    outcome. *)
Lemma matcherLoop_frame (target : string) (req : Request) (resp : Response)
      (body : string) (c : ConditionType) (ms : list ptr) (headers : string)
      (s : State) :
  frame s (finalState (matcherLoop target req resp body c ms headers s)).
Proof.
  revert headers s. induction ms as [|p rest IH]; intros headers s.
  - apply frame_refl.
  - destruct (load p "matcher.Target" s) as [m s0|site s0] eqn:Hload.
    + assert (s0 = s) as ->.
      { unfold load in Hload. destruct p as [a|]; [|discriminate].
        destruct (heap s !! a); [|discriminate]. congruence. }
      rewrite (matcherLoop_cons _ _ _ _ _ _ m _ _ _ Hload).
      destruct (applicable target (p, m)); [|apply IH].
      cbv zeta.
      set (wants := matcherWantsHeaders (GetPart m) headers).
      pose proof (frame_headerState wants s) as F1.
      destruct (Match m resp body _).
      * eapply frame_trans; [|apply IH].
        destruct (ConditionType_eqb c ORCondition && _); [|exact F1].
        eapply frame_trans; [exact F1|apply frame_setOutput].
      * destruct (ConditionType_eqb c ANDCondition); [exact F1|].
        eapply frame_trans; [exact F1|apply IH].
    + cbn [matcherLoop]. unfold bind at 1. rewrite Hload.
      unfold load in Hload. destruct p as [a|].
      * destruct (heap s !! a); [discriminate|].
        injection Hload as _ <-. apply frame_refl.
      * injection Hload as _ <-. apply frame_refl.
Qed.

End EvaluationFacts.

Section MatcherLoopFacts.

Context `{Collaborators}.

Variables (target : string) (req : Request) (resp : Response) (body : string).

(** Under AND the loop writes nothing, and runs off its end exactly when
    every applicable matcher passes. *)
Lemma matcherLoop_and (ms : list ptr) :
  forall (vs : list (ptr * Matcher)) (headers : string) (s : State),
    resolve (heap s) ms = Some vs ->
    exists h s',
      matcherLoop target req resp body ANDCondition ms headers s =
        Done (if forallb (verdict resp body)
                   (headersSeen (headersToString (RespHeader resp)) headers
                      (List.filter (applicable target) vs))
              then FellThrough h else ContinueMainLoop) s' /\
      frame s s' /\ output s' = output s.
Proof.
  induction ms as [|p rest IH]; intros vs headers s Hres.
  - injection Hres as <-. exists headers, s. repeat split.
  - destruct (load_resolved (heap s) p rest vs "matcher.Target" s eq_refl Hres)
      as (m & l & -> & Hrest & Hload).
    rewrite (matcherLoop_cons _ _ _ _ _ _ m _ _ _ Hload).
    cbn [List.filter]. destruct (applicable target (p, m)); [|apply IH; exact Hrest].
    cbv zeta. cbn [headersSeen forallb]. unfold verdict at 1. cbn [fst snd].
    set (wants := matcherWantsHeaders (GetPart m) headers).
    set (h := if wants then headersToString (RespHeader resp) else headers).
    destruct (Match m resp body h); cbn [ConditionType_eqb andb].
    + destruct (IH l h (headerState wants s)) as (h' & s' & E & F & O).
      { destruct (frame_headerState wants s) as (-> & _). exact Hrest. }
      exists h', s'. rewrite E. split; [reflexivity|]. split.
      * eapply frame_trans; [apply frame_headerState|exact F].
      * rewrite O. apply output_headerState.
    + exists h, (headerState wants s). split; [reflexivity|]. split.
      * apply frame_headerState.
      * apply output_headerState.
Qed.

(** Under OR the loop always runs off its end; without extractors it
    writes one entry for each applicable matcher that passes, in order. *)
Lemma matcherLoop_or (ms : list ptr) :
  forall (vs : list (ptr * Matcher)) (headers : string) (s : State),
    resolve (heap s) ms = Some vs ->
    exists h s',
      matcherLoop target req resp body ORCondition ms headers s =
        Done (FellThrough h) s' /\
      frame s s' /\
      output s' =
        output s ++
        (if len (Extractors s) =? 0
         then map (matcherOutput req)
                  (List.filter (verdict resp body)
                     (headersSeen (headersToString (RespHeader resp)) headers
                        (List.filter (applicable target) vs)))
         else []).
Proof.
  induction ms as [|p rest IH]; intros vs headers s Hres.
  - injection Hres as <-. exists headers, s. repeat split.
    cbn. destruct (len (Extractors s) =? 0); rewrite app_nil_r; reflexivity.
  - destruct (load_resolved (heap s) p rest vs "matcher.Target" s eq_refl Hres)
      as (m & l & -> & Hrest & Hload).
    rewrite (matcherLoop_cons _ _ _ _ _ _ m _ _ _ Hload).
    cbn [List.filter]. destruct (applicable target (p, m)); [|apply IH; exact Hrest].
    cbv zeta. cbn [headersSeen List.filter]. unfold verdict at 1. cbn [fst snd].
    set (wants := matcherWantsHeaders (GetPart m) headers).
    set (h := if wants then headersToString (RespHeader resp) else headers).
    destruct (frame_headerState wants s) as (Hheap & _ & Hex & _).
    pose proof (output_headerState wants s) as Hout.
    rewrite Hex.
    destruct (Match m resp body h); cbn [ConditionType_eqb andb].
    + destruct (len (Extractors s) =? 0) eqn:Hn.
      * destruct (IH l h (setOutput (output (headerState wants s) ++
                                     [matcherOutput req (p, m, h)])
                                    (headerState wants s)))
          as (h' & s' & E & F & O).
        { cbn [heap setOutput]. rewrite Hheap. exact Hrest. }
        exists h', s'. rewrite E. split; [reflexivity|]. split.
        -- eapply frame_trans; [apply frame_headerState|].
           eapply frame_trans; [apply frame_setOutput|exact F].
        -- rewrite O. cbn [Extractors output setOutput]. rewrite Hex, Hn, Hout.
           cbn [map]. rewrite <- app_assoc. reflexivity.
      * destruct (IH l h (headerState wants s)) as (h' & s' & E & F & O).
        { rewrite Hheap. exact Hrest. }
        exists h', s'. rewrite E. split; [reflexivity|]. split.
        -- eapply frame_trans; [apply frame_headerState|exact F].
        -- rewrite O, Hex, Hn, Hout. reflexivity.
    + destruct (IH l h (headerState wants s)) as (h' & s' & E & F & O).
      { rewrite Hheap. exact Hrest. }
      exists h', s'. rewrite E. split; [reflexivity|]. split.
      * eapply frame_trans; [apply frame_headerState|exact F].
      * rewrite O, Hex, Hout. reflexivity.
Qed.

(** The loop over the extractors always completes and writes nothing. *)
Lemma extractorLoop_completes (es : list Extractor) :
  forall (headers : string) (acc : list string) (s : State),
    exists results s',
      extractorLoop resp body es headers acc s = Done results s' /\
      frame s s' /\ output s' = output s.
Proof.
  induction es as [|e rest IH]; intros headers acc s.
  - exists acc, s. repeat split.
  - cbn [extractorLoop]. unfold bind at 1.
    destruct (extractorWantsHeaders (ExtractorGetPart e) headers).
    + cbn [buildHeaders].
      destruct (IH (headersToString (RespHeader resp))
                   (acc ++ Extract e body (headersToString (RespHeader resp)))
                   (setHeaderBuilds (S (headerBuilds s)) s))
        as (r & s' & E & F & O).
      exists r, s'. rewrite E. split; [reflexivity|]. split; [|exact O].
      eapply frame_trans; [apply frame_setHeaderBuilds|exact F].
    + cbn [ret]. apply IH.
Qed.

End MatcherLoopFacts.

Section ResponseFacts.

Context `{Collaborators}.

Lemma output_app_one_neq (l : list Output) (o : Output) : l ++ [o] <> l.
Proof.
  intros E. apply (f_equal (@length Output)) in E.
  rewrite length_app in E. simpl in E. lia.
Qed.

(** A request that is answered and whose body is read is evaluated, and
    the loop goes on with the requests that remain. *)
Lemma mainLoop_next (target : string) (req : Request) (rest : list Request)
      (resp : Response) (data : list Byte.byte) (w : World) (s s' : State) :
  Do req (world s) = ((Some resp, None), w) ->
  Body resp = (data, None) ->
  evalResponse target req resp (unsafeToString data) (afterDo req w s) = Done tt s' ->
  mainLoop target (req :: rest) s = mainLoop target rest s'.
Proof.
  intros HDo HBody E. cbn [mainLoop]. unfold bind at 1, clientDo.
  rewrite HDo, HBody. unfold bind at 1. fold (afterDo req w s).
  rewrite E. reflexivity.
Qed.

(** What [evalResponse] does once the loop over the matchers has run off
    its end. *)
Lemma evalResponse_fell_through (target : string) (req : Request)
      (resp : Response) (body h : string) (s s1 : State) :
  matcherLoop target req resp body (matchersCondition s) (Matchers s) "" s =
    Done (FellThrough h) s1 ->
  exists results s2,
    extractorLoop resp body (Extractors s) h [] s1 = Done results s2 /\
    output s2 = output s1 /\
    evalResponse target req resp body s =
      if (len (Extractors s) >? 0)
         || ConditionType_eqb (matchersCondition s) ANDCondition
      then Done tt (setOutput (output s2 ++ [consolidatedOutput req results]) s2)
      else Done tt s2.
Proof.
  intros E.
  pose proof (matcherLoop_frame target req resp body (matchersCondition s)
                                (Matchers s) "" s) as F.
  rewrite E in F. cbn [finalState] in F. destruct F as (_ & _ & Hex & _).
  destruct (extractorLoop_completes resp body (Extractors s) h [] s1)
    as (results & s2 & EX & (_ & _ & Hex2 & _) & O).
  exists results, s2. split; [exact EX|]. split; [exact O|].
  unfold evalResponse, bind, GetMatchersCondition, getMatchers.
  rewrite E. unfold getExtractors. rewrite Hex, EX, Hex2, Hex.
  destruct (_ || _); reflexivity.
Qed.

End ResponseFacts.

(** C1. Under the AND condition a response yields a consolidated entry
    exactly when every matcher that applies to the URL passes on the
    response, the body and the header text it is handed; when one fails
    nothing is written for the request; either way the loop goes on with
    the next compiled request. *)
Theorem and_condition_emission `{Collaborators}
        (target : string) (req : Request) (rest : list Request)
        (resp : Response) (data : list Byte.byte) (w : World) (s : State)
        (vs : list (ptr * Matcher)) :
  let body := unsafeToString data in
  let seen := headersSeen (headersToString (RespHeader resp)) ""
                          (List.filter (applicable target) vs) in
  matchersCondition s = ANDCondition ->
  resolve (heap s) (Matchers s) = Some vs ->
  Do req (world s) = ((Some resp, None), w) ->
  Body resp = (data, None) ->
  exists s',
    evalResponse target req resp body (afterDo req w s) = Done tt s' /\
    mainLoop target (req :: rest) s = mainLoop target rest s' /\
    ((exists results, output s' = output s ++ [consolidatedOutput req results]) <->
     forallb (verdict resp body) seen = true) /\
    (forallb (verdict resp body) seen = false -> output s' = output s).
Proof.
  intros body seen Hc Hres HDo HBody.
  set (s0 := afterDo req w s).
  destruct (matcherLoop_and target req resp body (Matchers s0) vs "" s0 Hres)
    as (h & s1 & E & F & O).
  fold seen in E.
  assert (exists s', evalResponse target req resp body s0 = Done tt s' /\
            if forallb (verdict resp body) seen
            then exists results, output s' = output s ++ [consolidatedOutput req results]
            else output s' = output s) as (s' & Ev & Hout).
  { destruct (forallb (verdict resp body) seen).
    - replace ANDCondition with (matchersCondition s0) in E by exact Hc.
      destruct (evalResponse_fell_through target req resp body h s0 s1 E)
        as (results & s2 & _ & O2 & Ev).
      replace (matchersCondition s0) with ANDCondition in Ev by (symmetry; exact Hc).
      rewrite orb_true_r in Ev.
      eexists. split; [exact Ev|]. exists results.
      cbn [output setOutput]. rewrite O2, O. reflexivity.
    - exists s1. split; [|exact O].
      unfold evalResponse, bind, GetMatchersCondition, getMatchers.
      replace (matchersCondition s0) with ANDCondition by (symmetry; exact Hc).
      rewrite E. reflexivity. }
  exists s'. split; [exact Ev|]. split.
  - eapply mainLoop_next; eassumption.
  - destruct (forallb (verdict resp body) seen); (split; [split|]).
    + intros _. reflexivity.
    + intros _. exact Hout.
    + discriminate.
    + intros [results Hr]. rewrite Hout in Hr. symmetry in Hr.
      exfalso. exact (output_app_one_neq _ _ Hr).
    + discriminate.
    + intros _. exact Hout.
Qed.

(** C2. Under the OR condition and without extractors a response yields
    exactly one entry for each applicable matcher that passes, in the order
    of the matchers and with that matcher as its cause, and no other entry;
    a passing matcher does not stop the loop. *)
Theorem or_condition_emissions `{Collaborators}
        (target : string) (req : Request) (rest : list Request)
        (resp : Response) (data : list Byte.byte) (w : World) (s : State)
        (vs : list (ptr * Matcher)) :
  let body := unsafeToString data in
  let seen := headersSeen (headersToString (RespHeader resp)) ""
                          (List.filter (applicable target) vs) in
  matchersCondition s = ORCondition ->
  Extractors s = [] ->
  resolve (heap s) (Matchers s) = Some vs ->
  Do req (world s) = ((Some resp, None), w) ->
  Body resp = (data, None) ->
  exists s',
    evalResponse target req resp body (afterDo req w s) = Done tt s' /\
    mainLoop target (req :: rest) s = mainLoop target rest s' /\
    output s' =
      output s ++ map (matcherOutput req) (List.filter (verdict resp body) seen).
Proof.
  intros body seen Hc He Hres HDo HBody.
  set (s0 := afterDo req w s).
  destruct (matcherLoop_or target req resp body (Matchers s0) vs "" s0 Hres)
    as (h & s1 & E & F & O).
  fold seen in O.
  replace (Extractors s0) with (@nil Extractor) in O by (symmetry; exact He).
  change (len [] =? 0) with true in O. cbv iota in O.
  replace ORCondition with (matchersCondition s0) in E by exact Hc.
  destruct (evalResponse_fell_through target req resp body h s0 s1 E)
    as (results & s2 & _ & O2 & Ev).
  replace (matchersCondition s0) with ORCondition in Ev by (symmetry; exact Hc).
  replace (Extractors s0) with (@nil Extractor) in Ev by (symmetry; exact He).
  change (len [] >? 0) with false in Ev. cbn [orb ConditionType_eqb] in Ev.
  exists s2. split; [exact Ev|]. split.
  - eapply mainLoop_next; eassumption.
  - rewrite O2. exact O.
Qed.

(** C4, as the code has it.  Once the loop over the matchers has run off
    its end, [evalResponse] writes the consolidated entry, carrying what
    the extractors produced, exactly when an extractor is configured or the
    condition is AND; with condition OR and no extractor configured it
    writes nothing more. *)
Theorem consolidated_emission `{Collaborators}
        (target : string) (req : Request) (resp : Response) (body h : string)
        (s s1 : State) :
  matcherLoop target req resp body (matchersCondition s) (Matchers s) "" s =
    Done (FellThrough h) s1 ->
  exists results s2 s',
    extractorLoop resp body (Extractors s) h [] s1 = Done results s2 /\
    evalResponse target req resp body s = Done tt s' /\
    (output s' = output s1 ++ [consolidatedOutput req results] <->
     Extractors s <> [] \/ matchersCondition s = ANDCondition) /\
    (output s' = output s1 <->
     Extractors s = [] /\ matchersCondition s = ORCondition).
Proof.
  intros E.
  destruct (evalResponse_fell_through target req resp body h s s1 E)
    as (results & s2 & EX & O2 & Ev).
  assert ((len (Extractors s) >? 0) = negb (match Extractors s with [] => true | _ => false end)) as Hlen.
  { unfold len. destruct (Extractors s); [reflexivity|]. simpl length.
    destruct (Z.gtb_spec (Z.of_nat (S (length l))) 0); [reflexivity|lia]. }
  rewrite Hlen in Ev. clear Hlen.
  exists results, s2.
  destruct (Extractors s) as [|e es] eqn:He;
    destruct (matchersCondition s) eqn:Hc; cbn in Ev;
    eexists; (split; [exact EX|]); (split; [exact Ev|]);
    cbn [output setOutput]; rewrite ?O2; split; split.
  all: try (intros _; reflexivity).
  all: try (intros _; right; reflexivity).
  all: try (intros _; left; discriminate).
  all: try (intros Hx; exfalso; exact (output_app_one_neq _ _ Hx)).
  all: try (intros [? ?]; discriminate).
  all: try (intros Hx; symmetry in Hx; exfalso; exact (output_app_one_neq _ _ Hx)).
  all: try (intros [? | ?]; congruence).
  all: try (intros _; split; reflexivity).
Qed.

(** C5. Two matchers that ask for the "all" part, condition OR, no
    extractors: the header text of the one response is built twice. *)
Theorem header_text_rebuilt_for_all_part `{Collaborators}
        (target : string) (req : Request) (resp : Response) (body : string)
        (r1 r2 : MatcherRule) (w : World) :
  let matcher r := {| Type_ := "word"; part := matchers.AllPart; Target := "";
                      Size := []; Status := []; rule := r |} in
  let s := {| heap := [matcher r1; matcher r2];
              Matchers := [Some 0%nat; Some 1%nat];
              Extractors := []; matchersCondition := ORCondition;
              world := w; sent := []; output := []; headerBuilds := O |} in
  headerBuilds (finalState (evalResponse target req resp body s)) = 2%nat.
Proof.
  intros matcher s. subst s matcher.
  unfold evalResponse, bind, GetMatchersCondition, getMatchers.
  cbn [Matchers matchersCondition matcherLoop].
  unfold bind, load. cbv -[Match headersToString RespHeader].
  repeat match goal with
         | |- context [Match ?m resp body ?h] =>
             destruct (Match m resp body h);
             cbv -[Match headersToString RespHeader]
         end.
  all: reflexivity.
Qed.

(** ** Client construction *)

(** C8. A SOCKS5 proxy URL that fails to parse leaves [socksURL] nil, and
    the address passed to [proxy.SOCKS5] is built from [socksURL.Hostname()]
    whatever the parse returned: [makeHTTPClient] panics there, so
    [NewHTTPExecutor] never returns an executor for such options. *)
Theorem malformed_socks_url_panics `{Collaborators} (options : HTTPOptions) (e : error) :
  ProxySocksURL options <> "" ->
  url_Parse (ProxySocksURL options) = inr e ->
  (forall proxyURL : option URL,
      makeHTTPClient proxyURL options = Crashed "socksURL.Hostname()") /\
  (forall ex : HTTPExecutor, NewHTTPExecutor options <> Built (Some ex, None)) /\
  (ProxyURL options = "" ->
   NewHTTPExecutor options = Crashed "socksURL.Hostname()").
Proof.
  intros Hset Hparse.
  assert (forall proxyURL : option URL,
             makeHTTPClient proxyURL options = Crashed "socksURL.Hostname()") as Hclient.
  { intros proxyURL. unfold makeHTTPClient, installSocks.
    apply String.eqb_neq in Hset. rewrite Hset, Hparse. reflexivity. }
  split; [exact Hclient|]. split.
  - intros ex. unfold NewHTTPExecutor.
    destruct (negb (String.eqb (ProxyURL options) "")).
    + destruct (parseError (url_Parse (ProxyURL options))); [discriminate|].
      rewrite Hclient. discriminate.
    + rewrite Hclient. discriminate.
  - intros Hnone. unfold NewHTTPExecutor. rewrite Hnone. cbn [String.eqb negb].
    rewrite Hclient. reflexivity.
Qed.

(** ** The properties at concrete inputs *)

(** Scenario A: one status matcher for 200, condition AND, the target
    answers 200: one entry, without extractor results. *)
Example scenario_status_200_and :
  output (finalState
    (ExecuteHTTP "http://t"
       (sampleState [sampleMatcher "status" matchers.BodyPart ""]
                    [Some 0%nat] [] ANDCondition))) =
  [consolidatedOutput "http://t" []].
Proof. reflexivity. Qed.

(** Scenario B: the same matcher looking for 404: nothing is written. *)
Example scenario_status_404_and :
  output (finalState
    (ExecuteHTTP "http://t"
       (sampleState [withStatus [404] (sampleMatcher "status" matchers.BodyPart "")]
                    [Some 0%nat] [] ANDCondition))) = [].
Proof. reflexivity. Qed.

(** Scenario C: two word matchers, condition OR, the body is the second
    word: one entry, caused by the second matcher. *)
Example scenario_two_words_or :
  output (finalState
    (ExecuteHTTP "http://t"
       (sampleState [sampleMatcher "word" matchers.BodyPart "bye";
                     sampleMatcher "word" matchers.BodyPart "hello"]
                    [Some 0%nat; Some 1%nat] [] ORCondition))) =
  [{| outRequest := "http://t"; outMatcher := Some 1%nat;
      outExtractorResults := [] |}].
Proof. reflexivity. Qed.

(** A request with a matcher of type "auto" does not get that far. *)
Example scenario_auto_matcher :
  ExecuteHTTP "http://t"
    (sampleState [sampleMatcher "auto" matchers.BodyPart ""]
                 [Some 0%nat] [] ANDCondition) =
  Panic "m.Target"
    (setWorld 2%nat (sampleState [sampleMatcher "auto" matchers.BodyPart ""]
                                 [Some 0%nat] [] ANDCondition)).
Proof. reflexivity. Qed.

Lemma and_condition_emission_witness :
  let s := sampleState [sampleMatcher "status" matchers.BodyPart ""]
                       [Some 0%nat] [] ANDCondition in
  let vs := [(Some 0%nat, sampleMatcher "status" matchers.BodyPart "")] in
  let body := unsafeToString (list_byte_of_string "hello") in
  let seen := headersSeen (headersToString (RespHeader sampleResponse)) ""
                          (List.filter (applicable "http://t") vs) in
  (matchersCondition s = ANDCondition /\
   resolve (heap s) (Matchers s) = Some vs /\
   Do "http://t/a" (world s) = ((Some sampleResponse, None), O) /\
   Body sampleResponse = (list_byte_of_string "hello", None)) /\
  exists s',
    evalResponse "http://t" "http://t/a" sampleResponse body
                 (afterDo "http://t/a" O s) = Done tt s' /\
    mainLoop "http://t" ["http://t/a"; "http://t/b"] s =
      mainLoop "http://t" ["http://t/b"] s' /\
    ((exists results,
         output s' = output s ++ [consolidatedOutput (H:=sampleTypes) "http://t/a" results]) <->
     forallb (verdict sampleResponse body) seen = true) /\
    (forallb (verdict sampleResponse body) seen = false -> output s' = output s).
Proof.
  cbv zeta. split; [repeat split|].
  apply (@and_condition_emission sampleTypes sampleCollaborators "http://t" "http://t/a" ["http://t/b"]
           sampleResponse (list_byte_of_string "hello") O
           (sampleState [sampleMatcher "status" matchers.BodyPart ""]
                        [Some 0%nat] [] ANDCondition)
           [(Some 0%nat, sampleMatcher "status" matchers.BodyPart "")]);
    reflexivity.
Defined.

Lemma or_condition_emissions_witness :
  let s := sampleState [sampleMatcher "word" matchers.BodyPart "bye";
                        sampleMatcher "word" matchers.AllPart "hello";
                        sampleMatcher "word" matchers.HeaderPart "hello"]
                       [Some 0%nat; Some 1%nat; Some 2%nat] [] ORCondition in
  let vs := [(Some 0%nat, sampleMatcher "word" matchers.BodyPart "bye");
             (Some 1%nat, sampleMatcher "word" matchers.AllPart "hello");
             (Some 2%nat, sampleMatcher "word" matchers.HeaderPart "hello")] in
  let body := unsafeToString (list_byte_of_string "hello") in
  let seen := headersSeen (headersToString (RespHeader sampleResponse)) ""
                          (List.filter (applicable "http://t") vs) in
  (matchersCondition s = ORCondition /\
   Extractors s = [] /\
   resolve (heap s) (Matchers s) = Some vs /\
   Do "http://t/a" (world s) = ((Some sampleResponse, None), O) /\
   Body sampleResponse = (list_byte_of_string "hello", None)) /\
  exists s',
    evalResponse "http://t" "http://t/a" sampleResponse body
                 (afterDo "http://t/a" O s) = Done tt s' /\
    mainLoop "http://t" ["http://t/a"] s = mainLoop "http://t" [] s' /\
    output s' =
      output s ++ map (matcherOutput (H:=sampleTypes) "http://t/a")
                      (List.filter (verdict sampleResponse body) seen).
Proof.
  cbv zeta. split; [repeat split|].
  apply (@or_condition_emissions sampleTypes sampleCollaborators "http://t" "http://t/a" []
           sampleResponse (list_byte_of_string "hello") O
           (sampleState [sampleMatcher "word" matchers.BodyPart "bye";
                         sampleMatcher "word" matchers.AllPart "hello";
                         sampleMatcher "word" matchers.HeaderPart "hello"]
                        [Some 0%nat; Some 1%nat; Some 2%nat] [] ORCondition)
           [(Some 0%nat, sampleMatcher "word" matchers.BodyPart "bye");
            (Some 1%nat, sampleMatcher "word" matchers.AllPart "hello");
            (Some 2%nat, sampleMatcher "word" matchers.HeaderPart "hello")]);
    reflexivity.
Defined.

(** C4, as stated, fails: condition OR, one extractor configured that
    finds nothing.  The extractors produce no string and the condition is
    not AND, yet the consolidated entry is written. *)
Lemma or_silent_extractor_still_emits :
  let s := sampleState [sampleMatcher "word" matchers.BodyPart "hello"]
                       [Some 0%nat] [(extractors.BodyPart, [])] ORCondition in
  let s' := finalState
              (evalResponse "http://t" "http://t/a" sampleResponse "hello" s) in
  let results :=
    match extractorLoop sampleResponse "hello" (Extractors s) "" [] s with
    | Done r _ => r
    | Panic _ _ => []
    end in
  ~ (existsb isConsolidated (output s') = true <->
     results <> [] \/ matchersCondition s = ANDCondition).
Proof.
  cbv zeta. intros [Hemit _].
  assert (existsb isConsolidated
            (output (finalState
               (evalResponse "http://t" "http://t/a" sampleResponse "hello"
                  (sampleState [sampleMatcher "word" matchers.BodyPart "hello"]
                     [Some 0%nat] [(extractors.BodyPart, [])] ORCondition)))) = true)
    as Hyes by reflexivity.
  destruct (Hemit Hyes) as [Hres | Hand].
  - apply Hres. reflexivity.
  - discriminate Hand.
Qed.

Lemma consolidated_emission_witness :
  let s := sampleState [sampleMatcher "word" matchers.BodyPart "hello"]
                       [Some 0%nat] [(extractors.BodyPart, [])] ORCondition in
  matcherLoop "http://t" "http://t/a" sampleResponse "hello"
              (matchersCondition s) (Matchers s) "" s = Done (FellThrough "") s /\
  exists results s2 s',
    extractorLoop sampleResponse "hello" (Extractors s) "" [] s = Done results s2 /\
    evalResponse "http://t" "http://t/a" sampleResponse "hello" s = Done tt s' /\
    (output s' = output s ++ [consolidatedOutput (H:=sampleTypes) "http://t/a" results] <->
     Extractors s <> [] \/ matchersCondition s = ANDCondition) /\
    (output s' = output s <->
     Extractors s = [] /\ matchersCondition s = ORCondition).
Proof.
  cbv zeta. split; [reflexivity|].
  apply (@consolidated_emission sampleTypes sampleCollaborators
           "http://t" "http://t/a" sampleResponse "hello" ""
           (sampleState [sampleMatcher "word" matchers.BodyPart "hello"]
                        [Some 0%nat] [(extractors.BodyPart, [])] ORCondition)).
  reflexivity.
Defined.

Lemma calibration_appends_duplicate_size_witness :
  let mv := withSize [5] (sampleMatcher "auto" matchers.BodyPart "") in
  let s := sampleState [mv] [Some 0%nat] [] ANDCondition in
  let data := list_byte_of_string "hello" in
  (heap s !! 0%nat = Some mv /\
   Do "http://t/token32" (world s) = ((Some sampleResponse, None), O) /\
   Body sampleResponse = (data, None) /\
   In (strlen (unsafeToString data)) (Size mv)) /\
  exists s',
    probeLoop (Some 0%nat) ["http://t/token32"] s = Done None s' /\
    heap s' !! 0%nat =
      Some (withStatus (Status mv ++ [StatusCode sampleResponse])
              (withSize (Size mv ++ [strlen (unsafeToString data)]) mv)) /\
    ~ NoDup (Size mv ++ [strlen (unsafeToString data)]).
Proof.
  cbv zeta. split; [repeat split; left; reflexivity|].
  apply (@calibration_appends_duplicate_size sampleTypes sampleCollaborators
           0%nat (withSize [5] (sampleMatcher "auto" matchers.BodyPart ""))
           "http://t/token32" sampleResponse (list_byte_of_string "hello") O
           (sampleState [withSize [5] (sampleMatcher "auto" matchers.BodyPart "")]
                        [Some 0%nat] [] ANDCondition)).
  - reflexivity.
  - reflexivity.
  - reflexivity.
  - left. reflexivity.
Defined.

Lemma calibration_matcher_nil_dereference_witness :
  let s := sampleState [sampleMatcher "status" matchers.BodyPart "";
                        sampleMatcher "auto" matchers.BodyPart ""]
                       [Some 0%nat; Some 1%nat] [] ANDCondition in
  let vs := [(Some 0%nat, sampleMatcher "status" matchers.BodyPart "");
             (Some 1%nat, sampleMatcher "auto" matchers.BodyPart "")] in
  (resolve (heap s) (Matchers s) = Some vs /\ existsb isAuto vs = true) /\
  ConfigureAutoType "http://t" s = Panic "m.Target" (setWorld 2%nat s) /\
  Matchers (finalState (ConfigureAutoType "http://t" s)) = Matchers s.
Proof.
  cbv zeta. split; [split; reflexivity|].
  destruct (@calibration_matcher_nil_dereference sampleTypes sampleCollaborators
              "http://t"
              (sampleState [sampleMatcher "status" matchers.BodyPart "";
                            sampleMatcher "auto" matchers.BodyPart ""]
                           [Some 0%nat; Some 1%nat] [] ANDCondition)
              [(Some 0%nat, sampleMatcher "status" matchers.BodyPart "");
               (Some 1%nat, sampleMatcher "auto" matchers.BodyPart "")]
              eq_refl eq_refl) as (_ & Hpanic & Hms & _).
  split; [exact Hpanic | exact Hms].
Defined.

Lemma calibration_without_auto_is_noop_witness :
  let s := sampleState [sampleMatcher "status" matchers.BodyPart "";
                        sampleMatcher "word" matchers.AllPart "hello"]
                       [Some 0%nat; Some 1%nat] [] ANDCondition in
  let vs := [(Some 0%nat, sampleMatcher "status" matchers.BodyPart "");
             (Some 1%nat, sampleMatcher "word" matchers.AllPart "hello")] in
  (resolve (heap s) (Matchers s) = Some vs /\ existsb isAuto vs = false) /\
  ConfigureAutoType "http://t" s = Done None (setWorld 2%nat s) /\
  sent (finalState (ConfigureAutoType "http://t" s)) = sent s.
Proof.
  cbv zeta. split; [split; reflexivity|].
  destruct (@calibration_without_auto_is_noop sampleTypes sampleCollaborators
              "http://t"
              (sampleState [sampleMatcher "status" matchers.BodyPart "";
                            sampleMatcher "word" matchers.AllPart "hello"]
                           [Some 0%nat; Some 1%nat] [] ANDCondition)
              [(Some 0%nat, sampleMatcher "status" matchers.BodyPart "");
               (Some 1%nat, sampleMatcher "word" matchers.AllPart "hello")]
              eq_refl eq_refl eq_refl) as (Hdone & Hsent & _).
  split; [exact Hdone | exact Hsent].
Defined.

Lemma malformed_socks_url_panics_witness :
  let options := {| HTTPRequest := {| Redirects := true; MaxRedirects := 0 |};
                    Timeout := 5; Retries := 1; ProxyURL := "";
                    ProxySocksURL := "://proxy:1080" |} in
  (ProxySocksURL options <> "" /\
   url_Parse (ProxySocksURL options) = inr (External "missing protocol scheme")) /\
  (forall proxyURL : option URL,
      makeHTTPClient proxyURL options = Crashed "socksURL.Hostname()") /\
  (forall ex : HTTPExecutor, NewHTTPExecutor options <> Built (Some ex, None)) /\
  (ProxyURL options = "" ->
   NewHTTPExecutor options = Crashed "socksURL.Hostname()").
Proof.
  cbv zeta. split; [split; [discriminate|reflexivity]|].
  apply (@malformed_socks_url_panics sampleTypes sampleCollaborators
           {| HTTPRequest := {| Redirects := true; MaxRedirects := 0 |};
              Timeout := 5; Retries := 1; ProxyURL := "";
              ProxySocksURL := "://proxy:1080" |}
           (External "missing protocol scheme")).
  - discriminate.
  - reflexivity.
Defined.

(** A SOCKS5 proxy URL that parses installs the SOCKS5 dial function. *)
Example well_formed_socks_url_builds :
  exists ex : HTTPExecutor,
    NewHTTPExecutor {| HTTPRequest := {| Redirects := true; MaxRedirects := 0 |};
                       Timeout := 5; Retries := 1; ProxyURL := "";
                       ProxySocksURL := "proxy" |} = Built (Some ex, None) /\
    Dial (transport (httpClient ex)) = Some "proxy:1080".
Proof. eexists. split; reflexivity. Qed.

(** * Further properties of the executor *)

(** ** The main loop *)

Section MainLoopFacts.

Context `{Collaborators}.

(** Evaluating a response changes the two logs only, whatever its outcome. *)
Lemma evalResponse_frame (target : string) (req : Request) (resp : Response)
      (body : string) (s : State) :
  frame s (finalState (evalResponse target req resp body s)).
Proof.
  pose proof (matcherLoop_frame target req resp body (matchersCondition s)
                                (Matchers s) "" s) as F.
  unfold evalResponse, bind, GetMatchersCondition, getMatchers.
  destruct (matcherLoop target req resp body (matchersCondition s)
                        (Matchers s) "" s) as [exit s1|site s1];
    cbn [finalState] in F; [|exact F].
  destruct exit as [|h]; [exact F|].
  unfold getExtractors.
  destruct (extractorLoop_completes resp body (Extractors s1) h [] s1)
    as (results & s2 & EX & F2 & _).
  rewrite EX.
  destruct (_ || _); cbn [finalState writeOutputHTTP ret].
  - eapply frame_trans; [exact F|]. eapply frame_trans; [exact F2|].
    apply frame_setOutput.
  - eapply frame_trans; [exact F|exact F2].
Qed.

(** The loop over the compiled requests leaves the matchers, the matcher
    objects, the extractors and the condition alone, and what it has sent
    when it stops is a prefix of its requests, in their order. *)
Lemma mainLoop_invariant (target : string) (reqs : list Request) :
  forall s : State,
    let s' := finalState (mainLoop target reqs s) in
    heap s' = heap s /\ Matchers s' = Matchers s /\
    Extractors s' = Extractors s /\
    matchersCondition s' = matchersCondition s /\
    exists k : nat, sent s' = sent s ++ firstn k reqs.
Proof.
  induction reqs as [|req rest IH]; intros s.
  - cbn. repeat split. exists O. rewrite app_nil_r. reflexivity.
  - remember (mainLoop target (req :: rest) s) as o eqn:Eo.
    cbn [mainLoop] in Eo. unfold bind at 1, clientDo in Eo.
    destruct (Do req (world s)) as [[resp err] w].
    fold (afterDo req w s) in Eo.
    assert (let s' := afterDo req w s in
            heap s' = heap s /\ Matchers s' = Matchers s /\
            Extractors s' = Extractors s /\
            matchersCondition s' = matchersCondition s /\
            exists k : nat, sent s' = sent s ++ firstn k (req :: rest))
      as Hstop.
    { repeat split. exists 1%nat. reflexivity. }
    destruct resp as [resp|], err as [e|]; try (subst o; exact Hstop).
    destruct (Body resp) as [data [e'|]]; [subst o; exact Hstop|].
    unfold bind at 1 in Eo.
    pose proof (evalResponse_frame target req resp (unsafeToString data)
                                   (afterDo req w s)) as F.
    destruct (evalResponse target req resp (unsafeToString data) (afterDo req w s))
      as [[] s1|site s1]; cbn [finalState] in F;
      destruct F as (F1 & F2 & F3 & F4 & _ & F6); subst o.
    + specialize (IH s1). cbv zeta in IH |- *.
      destruct IH as (I1 & I2 & I3 & I4 & k & I5).
      rewrite I1, I2, I3, I4, F1, F2, F3, F4. repeat split.
      exists (S k). rewrite I5, F6. cbn [sent afterDo setSent firstn].
      rewrite <- app_assoc. reflexivity.
    + cbv zeta. cbn [finalState]. rewrite F1, F2, F3, F4. repeat split.
      exists 1%nat. rewrite F6. reflexivity.
Qed.

(** When the loop returns nil it has sent every request, once. *)
Lemma mainLoop_success_sent (target : string) (reqs : list Request) :
  forall s s' : State,
    mainLoop target reqs s = Done None s' ->
    sent s' = sent s ++ reqs.
Proof.
  induction reqs as [|req rest IH]; intros s s' E.
  - cbn in E. injection E as <-. rewrite app_nil_r. reflexivity.
  - cbn [mainLoop] in E. unfold bind at 1, clientDo in E.
    destruct (Do req (world s)) as [[resp err] w].
    fold (afterDo req w s) in E.
    destruct resp as [resp|], err as [e|]; try discriminate.
    destruct (Body resp) as [data [e'|]]; [discriminate|].
    unfold bind at 1 in E.
    pose proof (evalResponse_frame target req resp (unsafeToString data)
                                   (afterDo req w s)) as F.
    destruct (evalResponse target req resp (unsafeToString data) (afterDo req w s))
      as [[] s1|site s1]; [|discriminate].
    cbn [finalState] in F. destruct F as (_ & _ & _ & _ & _ & F6).
    rewrite (IH s1 s' E), F6. cbn [sent afterDo setSent].
    rewrite <- app_assoc. reflexivity.
Qed.

(** An error the loop returns reports the request sent last: what was
    sent is the requests before it and itself, and the error is the
    failure of that request, wrapped with the name of the step. *)
Lemma mainLoop_error_names_step (target : string) (reqs : list Request) :
  forall (s s' : State) (e : error),
    mainLoop target reqs s = Done (Some e) s' ->
    exists (pre : list Request) (req : Request) (post : list Request) (w : World),
      reqs = pre ++ req :: post /\
      sent s' = sent s ++ pre ++ [req] /\
      world s' = snd (Do req w) /\
      stepFailure req w e.
Proof.
  induction reqs as [|req rest IH]; intros s s' e E.
  - discriminate.
  - cbn [mainLoop] in E. unfold bind at 1, clientDo in E.
    assert (forall e0 : error,
               stepFailure req (world s) e0 ->
               exists (pre : list Request) (r : Request) (post : list Request)
                      (w : World),
                 req :: rest = pre ++ r :: post /\
                 sent (afterDo req (snd (Do req (world s))) s) =
                   sent s ++ pre ++ [r] /\
                 world (afterDo req (snd (Do req (world s))) s) = snd (Do r w) /\
                 stepFailure r w e0) as Hhere.
    { intros e0 Hfail. exists [], req, rest, (world s). repeat split. exact Hfail. }
    unfold stepFailure in Hhere.
    destruct (Do req (world s)) as [[resp err] w]. cbn [fst snd] in Hhere.
    fold (afterDo req w s) in E.
    destruct resp as [resp|], err as [e0|]; try discriminate.
    + injection E as <- <-. apply Hhere. left. exists e0. split; reflexivity.
    + destruct (Body resp) as [data [e0|]] eqn:HBody.
      * injection E as <- <-. apply Hhere. right. exists resp, data, e0.
        repeat split. exact HBody.
      * unfold bind at 1 in E.
        pose proof (evalResponse_frame target req resp (unsafeToString data)
                                       (afterDo req w s)) as F.
        destruct (evalResponse target req resp (unsafeToString data) (afterDo req w s))
          as [[] s1|site s1]; [|discriminate].
        cbn [finalState] in F. destruct F as (_ & _ & _ & _ & _ & F6).
        destruct (IH s1 s' e E) as (pre & r & post & w0 & Hsplit & Hsent & Hw & Hfail).
        exists (req :: pre), r, post, w0. split; [rewrite Hsplit; reflexivity|].
        split; [|split; assumption].
        rewrite Hsent, F6. cbn [sent afterDo setSent app].
        rewrite <- app_assoc. reflexivity.
    + injection E as <- <-. apply Hhere. left. exists e0. split; reflexivity.
Qed.

(** Calibration leaves the state as it was, but for the world behind the
    request compiler. *)
Lemma ConfigureAutoType_state (target : string) (s : State) :
  exists w : World, finalState (ConfigureAutoType target s) = setWorld w s.
Proof.
  pose proof (ConfigureAutoType_unfold target s) as U.
  destruct (MakeHTTPRequestForAutoConfigure target 16 (world s)) as [x16 w16].
  destruct (MakeHTTPRequestForAutoConfigure target 32 w16) as [x32 w32].
  exists w32. rewrite U. destruct (snd x32); [reflexivity|].
  apply autoLoop_state.
Qed.

End MainLoopFacts.

(** X1. Whatever happens, the requests [ExecuteHTTP] has handed to the
    client are a prefix of the compiled requests, in their order; when it
    returns nil it has sent every compiled request, once. *)
Theorem ExecuteHTTP_sends_compiled_in_order `{Collaborators}
        (target : string) (s : State) :
  (exists k : nat,
      sent (finalState (ExecuteHTTP target s)) =
      sent s ++ firstn k (fst (MakeHTTPRequest target))) /\
  (forall s' : State,
      ExecuteHTTP target s = Done None s' ->
      sent s' = sent s ++ fst (MakeHTTPRequest target)).
Proof.
  unfold ExecuteHTTP.
  destruct (MakeHTTPRequest target) as [compiled [e|]]; cbn [fst].
  - split; [|discriminate]. exists O. cbn. rewrite app_nil_r. reflexivity.
  - unfold bind.
    destruct (ConfigureAutoType_state target s) as [w Hw].
    destruct (ConfigureAutoType target s) as [r s1|site s1];
      cbn [finalState] in Hw; subst s1.
    + split.
      * destruct (mainLoop_invariant target compiled (setWorld w s))
          as (_ & _ & _ & _ & k & Hk).
        exists k. exact Hk.
      * intros s' E. exact (mainLoop_success_sent target compiled _ _ E).
    + split; [|discriminate]. exists O. cbn. rewrite app_nil_r. reflexivity.
Qed.

(** X2. Every error [ExecuteHTTP] returns tells which step failed.  It is
    the error of compiling the requests, wrapped as a failure to make the
    request, with the state untouched; or it reports the compiled request
    that was sent last: the client's error for that request wrapped as a
    failure to make the request, or, when the client answered, the error
    of reading that response's body wrapped as a failure to read it. *)
Theorem ExecuteHTTP_errors_carry_context `{Collaborators}
        (target : string) (s s' : State) (e : error) :
  ExecuteHTTP target s = Done (Some e) s' ->
  (exists cause,
      snd (MakeHTTPRequest target) = Some cause /\
      e = Wrap cause "could not make http request" /\ s' = s) \/
  (snd (MakeHTTPRequest target) = None /\
   exists (pre : list Request) (req : Request) (post : list Request) (w : World),
     fst (MakeHTTPRequest target) = pre ++ req :: post /\
     sent s' = sent s ++ pre ++ [req] /\
     world s' = snd (Do req w) /\
     stepFailure req w e).
Proof.
  unfold ExecuteHTTP.
  destruct (MakeHTTPRequest target) as [compiled [e0|]]; cbn [fst snd].
  - intros E. injection E as <- <-. left. exists e0. repeat split.
  - unfold bind. intros E. right. split; [reflexivity|].
    destruct (ConfigureAutoType_state target s) as [w Hw].
    destruct (ConfigureAutoType target s) as [r s1|site s1]; [|discriminate].
    cbn [finalState] in Hw. subst s1.
    exact (mainLoop_error_names_step target compiled _ _ _ E).
Qed.

(** X3. [ExecuteHTTP] never changes the matchers of the request, any
    matcher object, the extractors or the condition, whether it returns or
    panics. *)
Theorem ExecuteHTTP_keeps_matchers `{Collaborators} (target : string) (s : State) :
  heap (finalState (ExecuteHTTP target s)) = heap s /\
  Matchers (finalState (ExecuteHTTP target s)) = Matchers s /\
  Extractors (finalState (ExecuteHTTP target s)) = Extractors s /\
  matchersCondition (finalState (ExecuteHTTP target s)) = matchersCondition s.
Proof.
  unfold ExecuteHTTP.
  destruct (MakeHTTPRequest target) as [compiled [e|]]; [repeat split|].
  unfold bind.
  destruct (ConfigureAutoType_state target s) as [w Hw].
  destruct (ConfigureAutoType target s) as [r s1|site s1];
    cbn [finalState] in Hw; subst s1; [|repeat split].
  destruct (mainLoop_invariant target compiled (setWorld w s))
    as (I1 & I2 & I3 & I4 & _).
  rewrite I1, I2, I3, I4. repeat split.
Qed.

(** X4. When the requests compile, the calibration requests compile and a
    matcher is of type "auto", [ExecuteHTTP] panics in the calibration,
    before any request is sent and before anything is written. *)
Theorem ExecuteHTTP_auto_matcher_panics `{Collaborators}
        (target : string) (s : State) (vs : list (ptr * Matcher)) :
  let r16 := MakeHTTPRequestForAutoConfigure target 16 (world s) in
  let r32 := MakeHTTPRequestForAutoConfigure target 32 (snd r16) in
  snd (MakeHTTPRequest target) = None ->
  snd (fst r32) = None ->
  resolve (heap s) (Matchers s) = Some vs ->
  existsb isAuto vs = true ->
  ExecuteHTTP target s = Panic "m.Target" (setWorld (snd r32) s) /\
  sent (finalState (ExecuteHTTP target s)) = sent s /\
  output (finalState (ExecuteHTTP target s)) = output s.
Proof.
  intros r16 r32 Hmake Hok Hres Hauto.
  assert (ExecuteHTTP target s = Panic "m.Target" (setWorld (snd r32) s)) as E.
  { unfold ExecuteHTTP.
    destruct (MakeHTTPRequest target) as [compiled err]. cbn [snd] in Hmake.
    subst err. unfold bind.
    pose proof (ConfigureAutoType_unfold target s) as U.
    subst r16 r32.
    destruct (MakeHTTPRequestForAutoConfigure target 16 (world s)) as [x16 w16].
    cbn [snd] in *.
    destruct (MakeHTTPRequestForAutoConfigure target 32 w16) as [x32 w32].
    cbn [fst snd] in *. rewrite U, Hok.
    rewrite (autoLoop_with_auto target (fst x32) (Matchers s) vs (setWorld w32 s)
                                Hres Hauto).
    reflexivity. }
  rewrite E. repeat split.
Qed.

(** X5. An error of the calibration is dropped: when the 32-character
    calibration request does not compile, [ExecuteHTTP] goes on with the
    compiled requests as if nothing had happened, whatever the matchers. *)
Theorem ExecuteHTTP_ignores_calibration_error `{Collaborators}
        (target : string) (s : State) (e : error) :
  let r16 := MakeHTTPRequestForAutoConfigure target 16 (world s) in
  let r32 := MakeHTTPRequestForAutoConfigure target 32 (snd r16) in
  snd (MakeHTTPRequest target) = None ->
  snd (fst r32) = Some e ->
  ExecuteHTTP target s =
  mainLoop target (fst (MakeHTTPRequest target)) (setWorld (snd r32) s).
Proof.
  intros r16 r32 Hmake Hfail.
  unfold ExecuteHTTP.
  destruct (MakeHTTPRequest target) as [compiled err]. cbn [fst snd] in *.
  subst err. unfold bind.
  pose proof (ConfigureAutoType_unfold target s) as U.
  subst r16 r32.
  destruct (MakeHTTPRequestForAutoConfigure target 16 (world s)) as [x16 w16].
  cbn [snd] in *.
  destruct (MakeHTTPRequestForAutoConfigure target 32 w16) as [x32 w32].
  cbn [fst snd] in *. rewrite U, Hfail. reflexivity.
Qed.

(** ** The header text *)

Section HeaderFacts.

Context `{Collaborators}.

Variables (target : string) (req : Request) (resp : Response) (body : string).

Lemma builtOnce_le (h : string) : (builtOnce h <= 1)%nat.
Proof. unfold builtOnce. destruct (String.eqb h ""); lia. Qed.

Lemma builtOnce_full (h : string) : h <> "" -> builtOnce h = 1%nat.
Proof.
  intros Hne. unfold builtOnce. destruct (String.eqb_spec h ""); congruence.
Qed.

(** What one matcher that does not ask for the "all" part does to the
    header text: it builds it when it asks for the header part and the
    text is still empty, and not otherwise. *)
Lemma header_step (m : Matcher) (headers : string) (s : State) :
  matchers.Part_eqb (GetPart m) matchers.AllPart = false ->
  headersToString (RespHeader resp) <> "" ->
  headers = "" \/ headers = headersToString (RespHeader resp) ->
  let wants := matcherWantsHeaders (GetPart m) headers in
  let h := if wants then headersToString (RespHeader resp) else headers in
  (h = "" \/ h = headersToString (RespHeader resp)) /\
  (headerBuilds (headerState wants s) + builtOnce headers =
   headerBuilds s + builtOnce h)%nat.
Proof.
  intros Hall Hfull Hh. cbv zeta. unfold matcherWantsHeaders. rewrite Hall.
  cbn [orb].
  destruct (matchers.Part_eqb (GetPart m) matchers.HeaderPart); cbn [andb headerState].
  - destruct (String.eqb_spec headers "") as [->|Hne]; cbn [headerState].
    + split; [right; reflexivity|].
      rewrite (builtOnce_full _ Hfull). cbn. lia.
    + split; [exact Hh|reflexivity].
  - split; [exact Hh|reflexivity].
Qed.

Lemma matcherLoop_header_cache (c : ConditionType) (ms : list ptr) :
  forall (vs : list (ptr * Matcher)) (headers : string) (s : State),
    resolve (heap s) ms = Some vs ->
    forallb (fun pm => negb (matcherPartIs matchers.AllPart pm))
            (List.filter (applicable target) vs) = true ->
    headersToString (RespHeader resp) <> "" ->
    headers = "" \/ headers = headersToString (RespHeader resp) ->
    exists exit s' h',
      matcherLoop target req resp body c ms headers s = Done exit s' /\
      (exit = ContinueMainLoop \/ exit = FellThrough h') /\
      (h' = "" \/ h' = headersToString (RespHeader resp)) /\
      (headerBuilds s' + builtOnce headers = headerBuilds s + builtOnce h')%nat.
Proof.
  induction ms as [|p rest IH]; intros vs headers s Hres Hparts Hfull Hh.
  - exists (FellThrough headers), s, headers. repeat split; [right; reflexivity|exact Hh].
  - destruct (load_resolved (heap s) p rest vs "matcher.Target" s eq_refl Hres)
      as (m & l & -> & Hrest & Hload).
    rewrite (matcherLoop_cons _ _ _ _ _ _ m _ _ _ Hload).
    cbn [List.filter] in Hparts.
    destruct (applicable target (p, m));
      [|eapply IH; eassumption].
    cbn [forallb] in Hparts. apply andb_true_iff in Hparts as [Hm Hl].
    unfold matcherPartIs in Hm. cbn [snd] in Hm. apply negb_true_iff in Hm.
    destruct (header_step m headers s Hm Hfull Hh) as (Hh1 & Hb1).
    cbv zeta.
    set (wants := matcherWantsHeaders (GetPart m) headers) in *.
    set (h := if wants then headersToString (RespHeader resp) else headers) in *.
    destruct (frame_headerState wants s) as (Hheap & _).
    destruct (Match m resp body h).
    + match goal with
      | |- context [matcherLoop target req resp body c rest h ?s1] =>
          destruct (IH l h s1) as (exit & s' & h' & E & Hex & Hh' & Hb);
            [ destruct (_ && _); cbn [heap setOutput]; rewrite Hheap; exact Hrest
            | exact Hl | exact Hfull | exact Hh1 | ];
          assert (headerBuilds s1 = headerBuilds (headerState wants s)) as Hs1
            by (destruct (_ && _); reflexivity)
      end.
      exists exit, s', h'. rewrite E. repeat split; try assumption. lia.
    + destruct (ConditionType_eqb c ANDCondition).
      * exists ContinueMainLoop, (headerState wants s), h.
        repeat split; [left; reflexivity|exact Hh1|exact Hb1].
      * destruct (IH l h (headerState wants s))
          as (exit & s' & h' & E & Hex & Hh' & Hb);
          [rewrite Hheap; exact Hrest | exact Hl | exact Hfull | exact Hh1 |].
        exists exit, s', h'. rewrite E. repeat split; try assumption. lia.
Qed.

Lemma extractorLoop_header_cache (es : list Extractor) :
  forall (headers : string) (acc : list string) (s : State),
    forallb (fun e => negb (extractorPartIs extractors.AllPart e)) es = true ->
    headersToString (RespHeader resp) <> "" ->
    headers = "" \/ headers = headersToString (RespHeader resp) ->
    exists results s',
      extractorLoop resp body es headers acc s = Done results s' /\
      (headerBuilds s' + builtOnce headers <= headerBuilds s + 1)%nat.
Proof.
  induction es as [|e rest IH]; intros headers acc s Hparts Hfull Hh.
  - exists acc, s. split; [reflexivity|]. pose proof (builtOnce_le headers). lia.
  - cbn [forallb] in Hparts. apply andb_true_iff in Hparts as [He Hl].
    unfold extractorPartIs in He. apply negb_true_iff in He.
    cbn [extractorLoop]. unfold bind at 1, extractorWantsHeaders.
    rewrite He. cbn [orb].
    destruct (extractors.Part_eqb (ExtractorGetPart e) extractors.HeaderPart);
      cbn [andb].
    + destruct (String.eqb_spec headers "") as [->|Hne].
      * cbn [buildHeaders].
        destruct (IH (headersToString (RespHeader resp))
                     ([] ++ acc ++ Extract e body (headersToString (RespHeader resp)))
                     (setHeaderBuilds (S (headerBuilds s)) s) Hl Hfull
                     (or_intror eq_refl))
          as (results & s' & E & Hb).
        cbn [app] in E. exists results, s'. split; [exact E|].
        rewrite (builtOnce_full _ Hfull) in Hb. cbn [headerBuilds setHeaderBuilds] in Hb.
        cbn. lia.
      * cbn [ret]. apply IH; assumption.
    + cbn [ret]. apply IH; assumption.
Qed.

End HeaderFacts.

Section NoHeaderFacts.

Context `{Collaborators}.

Variables (target : string) (req : Request) (resp : Response) (body : string).

Lemma matcherLoop_body_only (c : ConditionType) (ms : list ptr) :
  forall (vs : list (ptr * Matcher)) (headers : string) (s : State),
    resolve (heap s) ms = Some vs ->
    forallb (matcherPartIs matchers.BodyPart)
            (List.filter (applicable target) vs) = true ->
    exists exit s',
      matcherLoop target req resp body c ms headers s = Done exit s' /\
      (exit = ContinueMainLoop \/ exit = FellThrough headers) /\
      headerBuilds s' = headerBuilds s.
Proof.
  induction ms as [|p rest IH]; intros vs headers s Hres Hparts.
  - exists (FellThrough headers), s. repeat split. right. reflexivity.
  - destruct (load_resolved (heap s) p rest vs "matcher.Target" s eq_refl Hres)
      as (m & l & -> & Hrest & Hload).
    rewrite (matcherLoop_cons _ _ _ _ _ _ m _ _ _ Hload).
    cbn [List.filter] in Hparts.
    destruct (applicable target (p, m)); [|eapply IH; eassumption].
    cbn [forallb] in Hparts. apply andb_true_iff in Hparts as [Hm Hl].
    unfold matcherPartIs in Hm. cbn [snd] in Hm.
    assert (matcherWantsHeaders (GetPart m) headers = false) as Hw.
    { unfold matcherWantsHeaders. destruct (GetPart m); try discriminate. reflexivity. }
    cbv zeta. rewrite Hw. cbn [headerState].
    destruct (Match m resp body headers).
    + match goal with
      | |- context [matcherLoop target req resp body c rest headers ?s1] =>
          destruct (IH l headers s1) as (exit & s' & E & Hex & Hb);
            [ destruct (_ && _); exact Hrest | exact Hl | ];
          assert (headerBuilds s1 = headerBuilds s) as Hs1
            by (destruct (_ && _); reflexivity)
      end.
      exists exit, s'. rewrite E. repeat split; [exact Hex|congruence].
    + destruct (ConditionType_eqb c ANDCondition).
      * exists ContinueMainLoop, s. repeat split. left. reflexivity.
      * eapply IH; eassumption.
Qed.

Lemma extractorLoop_body_only (es : list Extractor) :
  forall (headers : string) (acc : list string) (s : State),
    forallb (extractorPartIs extractors.BodyPart) es = true ->
    exists results s',
      extractorLoop resp body es headers acc s = Done results s' /\
      headerBuilds s' = headerBuilds s.
Proof.
  induction es as [|e rest IH]; intros headers acc s Hparts.
  - exists acc, s. split; reflexivity.
  - cbn [forallb] in Hparts. apply andb_true_iff in Hparts as [He Hl].
    unfold extractorPartIs in He.
    cbn [extractorLoop]. unfold bind at 1, extractorWantsHeaders.
    destruct (ExtractorGetPart e); try discriminate.
    cbn [extractors.Part_eqb orb andb ret]. apply IH. exact Hl.
Qed.

End NoHeaderFacts.

(** X6. When no applicable matcher and no extractor asks for the header or
    the "all" part, evaluating a response never builds the header text. *)
Theorem header_text_not_built_unasked `{Collaborators}
        (target : string) (req : Request) (resp : Response) (body : string)
        (s : State) (vs : list (ptr * Matcher)) :
  resolve (heap s) (Matchers s) = Some vs ->
  forallb (matcherPartIs matchers.BodyPart)
          (List.filter (applicable target) vs) = true ->
  forallb (extractorPartIs extractors.BodyPart) (Extractors s) = true ->
  headerBuilds (finalState (evalResponse target req resp body s)) = headerBuilds s.
Proof.
  intros Hres Hm He.
  destruct (matcherLoop_body_only target req resp body (matchersCondition s)
              (Matchers s) vs "" s Hres Hm) as (exit & s1 & E & Hex & Hb).
  pose proof (matcherLoop_frame target req resp body (matchersCondition s)
                                (Matchers s) "" s) as F.
  rewrite E in F. cbn [finalState] in F. destruct F as (_ & _ & Hes & _).
  unfold evalResponse, bind, GetMatchersCondition, getMatchers. rewrite E.
  destruct Hex as [-> | ->]; [exact Hb|].
  unfold getExtractors. rewrite Hes.
  destruct (extractorLoop_body_only resp body (Extractors s) "" [] s1 He)
    as (results & s2 & EX & Hb2).
  rewrite EX. destruct (_ || _); cbn; congruence.
Qed.

(** X7. When the header text of the response is not empty and no
    applicable matcher and no extractor asks for the "all" part, evaluating
    the response builds the header text once at most, however many of them
    ask for the header part. *)
Theorem header_text_built_once_for_header_part `{Collaborators}
        (target : string) (req : Request) (resp : Response) (body : string)
        (s : State) (vs : list (ptr * Matcher)) :
  resolve (heap s) (Matchers s) = Some vs ->
  forallb (fun pm => negb (matcherPartIs matchers.AllPart pm))
          (List.filter (applicable target) vs) = true ->
  forallb (fun e => negb (extractorPartIs extractors.AllPart e))
          (Extractors s) = true ->
  headersToString (RespHeader resp) <> "" ->
  (headerBuilds (finalState (evalResponse target req resp body s))
   <= headerBuilds s + 1)%nat.
Proof.
  intros Hres Hm He Hfull.
  destruct (matcherLoop_header_cache target req resp body (matchersCondition s)
              (Matchers s) vs "" s Hres Hm Hfull (or_introl eq_refl))
    as (exit & s1 & h' & E & Hex & Hh' & Hb).
  pose proof (builtOnce_le h') as Hle.
  change (builtOnce "") with O in Hb.
  pose proof (matcherLoop_frame target req resp body (matchersCondition s)
                                (Matchers s) "" s) as F.
  rewrite E in F. cbn [finalState] in F. destruct F as (_ & _ & Hes & _).
  unfold evalResponse, bind, GetMatchersCondition, getMatchers. rewrite E.
  destruct Hex as [-> | ->]; [cbn [finalState ret]; lia|].
  unfold getExtractors. rewrite Hes.
  destruct (extractorLoop_header_cache resp body (Extractors s) h' [] s1
                                       He Hfull Hh')
    as (results & s2 & EX & Hb2).
  rewrite EX. destruct (_ || _); cbn; lia.
Qed.

(** X8. Under the OR condition with an extractor configured, a response
    yields exactly one entry, the consolidated one, whatever the matchers
    return. *)
Theorem or_with_extractors_one_entry `{Collaborators}
        (target : string) (req : Request) (resp : Response) (body : string)
        (s : State) (vs : list (ptr * Matcher)) :
  matchersCondition s = ORCondition ->
  Extractors s <> [] ->
  resolve (heap s) (Matchers s) = Some vs ->
  exists results s',
    evalResponse target req resp body s = Done tt s' /\
    output s' = output s ++ [consolidatedOutput req results].
Proof.
  intros Hc He Hres.
  destruct (matcherLoop_or target req resp body (Matchers s) vs "" s Hres)
    as (h & s1 & E & _ & O).
  assert ((len (Extractors s) =? 0) = false /\ (len (Extractors s) >? 0) = true)
    as [Hz Hpos].
  { unfold len. destruct (Extractors s); [congruence|]. simpl length. split.
    - apply Z.eqb_neq. lia.
    - apply Z.gtb_lt. lia. }
  rewrite Hz, app_nil_r in O.
  replace ORCondition with (matchersCondition s) in E by exact Hc.
  destruct (evalResponse_fell_through target req resp body h s s1 E)
    as (results & s2 & _ & O2 & Ev).
  rewrite Hpos in Ev. cbn [orb] in Ev.
  exists results. eexists. split; [exact Ev|].
  cbn [output setOutput]. rewrite O2, O. reflexivity.
Qed.

(** X9. The extractor results are what the extractors yield on the body
    and the header text each is handed, in the order of the extractors and
    with repetitions kept, after what was collected before. *)
Theorem extractor_results_in_order `{Collaborators}
        (resp : Response) (body : string) (es : list Extractor)
        (headers : string) (acc : list string) (s : State) :
  exists s' : State,
    extractorLoop resp body es headers acc s =
    Done (acc ++ flat_map (fun eh => Extract (fst eh) body (snd eh))
                   (extractorsSeen (headersToString (RespHeader resp)) headers es))
         s'.
Proof.
  revert headers acc s. induction es as [|e rest IH]; intros headers acc s.
  - exists s. cbn. rewrite app_nil_r. reflexivity.
  - cbn [extractorLoop extractorsSeen flat_map fst snd]. unfold bind at 1.
    destruct (extractorWantsHeaders (ExtractorGetPart e) headers).
    + cbn [buildHeaders].
      destruct (IH (headersToString (RespHeader resp))
                   (acc ++ Extract e body (headersToString (RespHeader resp)))
                   (setHeaderBuilds (S (headerBuilds s)) s)) as (s' & E).
      exists s'. rewrite E, <- app_assoc. reflexivity.
    + cbn [ret].
      destruct (IH headers (acc ++ Extract e body headers) s) as (s' & E).
      exists s'. rewrite E, <- app_assoc. reflexivity.
Qed.

(** X10. A matcher whose target filter names another URL is passed over:
    the loop over the matchers behaves as if it were not in the list. *)
Theorem foreign_target_matcher_is_skipped `{Collaborators}
        (target : string) (req : Request) (resp : Response) (body : string)
        (c : ConditionType) (a : nat) (m : Matcher) (ms1 ms2 : list ptr)
        (headers : string) (s : State) :
  heap s !! a = Some m ->
  Target m <> "" ->
  Target m <> target ->
  matcherLoop target req resp body c (ms1 ++ Some a :: ms2) headers s =
  matcherLoop target req resp body c (ms1 ++ ms2) headers s.
Proof.
  intros Ha Hset Hother. revert headers s Ha.
  induction ms1 as [|p rest IH]; intros headers s Ha.
  - cbn [app].
    assert (load (Some a) "matcher.Target" s = Done m s) as Hload.
    { unfold load. rewrite Ha. reflexivity. }
    rewrite (matcherLoop_cons _ _ _ _ _ _ m _ _ _ Hload).
    unfold applicable. cbn [snd].
    apply String.eqb_neq in Hset, Hother. rewrite Hset, Hother. reflexivity.
  - cbn [app].
    destruct (load p "matcher.Target" s) as [m' s0|site s0] eqn:Hload.
    + assert (s0 = s) as ->.
      { unfold load in Hload. destruct p as [b|]; [|discriminate].
        destruct (heap s !! b); [|discriminate]. congruence. }
      rewrite !(matcherLoop_cons _ _ _ _ _ _ m' _ _ _ Hload).
      destruct (applicable target (p, m')); [|apply IH; exact Ha].
      cbv zeta.
      set (wants := matcherWantsHeaders (GetPart m') headers).
      destruct (frame_headerState wants s) as (Hheap & _).
      destruct (Match m' resp body _).
      * apply IH. destruct (_ && _); cbn [heap setOutput]; rewrite Hheap; exact Ha.
      * destruct (ConditionType_eqb c ANDCondition); [reflexivity|].
        apply IH. rewrite Hheap. exact Ha.
    + cbn [matcherLoop]. unfold bind. rewrite Hload. reflexivity.
Qed.

(** ** More on client construction *)

Section FactoryFacts.

Context `{Collaborators}.

(** Installing the SOCKS5 dialer changes the dial function of the
    transport at most. *)
Lemma installSocks_keeps (options : HTTPOptions) (t t' : Transport) :
  installSocks options t = Built t' ->
  MaxIdleConnsPerHost t' = MaxIdleConnsPerHost t /\
  Renegotiation t' = Renegotiation t /\
  InsecureSkipVerify t' = InsecureSkipVerify t /\
  DisableKeepAlives t' = DisableKeepAlives t /\
  Proxy t' = Proxy t.
Proof.
  unfold installSocks.
  destruct (negb (String.eqb (ProxySocksURL options) "")).
  - destruct (url_Parse (ProxySocksURL options)) as [u|e];
      cbn [parsedURL parseError urlField andThen]; [|discriminate].
    destruct (proxy_SOCKS5 _ _) as [[d|] [err|]]; intros E;
      try discriminate; injection E as <-; repeat split.
  - intros E. injection E as <-. repeat split.
Qed.

End FactoryFacts.

(** X11. A forward-proxy URL that does not parse makes [NewHTTPExecutor]
    return that parse error, unwrapped, and no executor; the SOCKS5 URL is
    not looked at, so not even a malformed one makes it panic. *)
Theorem forward_proxy_parse_error_returned `{Collaborators}
        (options : HTTPOptions) (e : error) :
  ProxyURL options <> "" ->
  url_Parse (ProxyURL options) = inr e ->
  NewHTTPExecutor options = Built (None, Some e).
Proof.
  intros Hset Hparse. unfold NewHTTPExecutor.
  apply String.eqb_neq in Hset. rewrite Hset, Hparse. reflexivity.
Qed.

(** X12. With a SOCKS5 URL that parses, a failure to build the SOCKS5
    dialer is dropped: the client is built and dials directly. *)
Theorem socks_dialer_error_falls_back `{Collaborators}
        (options : HTTPOptions) (u : URL) (d : option Dialer) (err : error)
        (proxyURL : option URL) :
  ProxySocksURL options <> "" ->
  url_Parse (ProxySocksURL options) = inl u ->
  proxy_SOCKS5 (String.append (url_Hostname u) (String.append ":" (url_Port u)))
               (Some (url_Username u, url_Password u)) = (d, Some err) ->
  exists client : Client,
    makeHTTPClient proxyURL options = Built client /\
    Dial (transport client) = None /\
    Proxy (transport client) = proxyURL.
Proof.
  intros Hset Hparse Hsocks. unfold makeHTTPClient, installSocks.
  apply String.eqb_neq in Hset. rewrite Hset, Hparse.
  cbn [negb parsedURL parseError urlField andThen].
  rewrite Hsocks. cbn [andThen].
  eexists. split; [reflexivity|]. destruct proxyURL; split; reflexivity.
Qed.

(** X13. With a SOCKS5 URL that parses, the dialer is asked for the
    address host:port with the user name and password of the URL, and the
    dialer obtained becomes the dial function of the client. *)
Theorem socks_dialer_installed `{Collaborators}
        (options : HTTPOptions) (u : URL) (d : Dialer) (proxyURL : option URL) :
  ProxySocksURL options <> "" ->
  url_Parse (ProxySocksURL options) = inl u ->
  proxy_SOCKS5 (String.append (url_Hostname u) (String.append ":" (url_Port u)))
               (Some (url_Username u, url_Password u)) = (Some d, None) ->
  exists client : Client,
    makeHTTPClient proxyURL options = Built client /\
    Dial (transport client) = Some d /\
    Proxy (transport client) = proxyURL.
Proof.
  intros Hset Hparse Hsocks. unfold makeHTTPClient, installSocks.
  apply String.eqb_neq in Hset. rewrite Hset, Hparse.
  cbn [negb parsedURL parseError urlField andThen].
  rewrite Hsocks. cbn [andThen].
  eexists. split; [reflexivity|]. destruct proxyURL; split; reflexivity.
Qed.

(** A whole number of seconds that fits a [time.Duration] is kept exactly;
    one more wraps around. *)
Lemma seconds_exact (n : Z) :
  -9223372036 <= n <= 9223372036 -> seconds n = n * Second.
Proof.
  intros Hn. unfold seconds, wrapInt64, Second.
  change (2 ^ 63) with 9223372036854775808.
  change (2 ^ 64) with 18446744073709551616.
  rewrite (Z.mod_small (n + 9223372036854775808)) by lia.
  replace (n + 9223372036854775808 - 9223372036854775808) with n by lia.
  rewrite Z.mod_small by lia. lia.
Qed.

Example seconds_wraps : seconds 9223372037 = -9223372036709551616.
Proof. reflexivity. Qed.

(** X14. Every executor [NewHTTPExecutor] builds, whatever the proxies,
    has the same fixed settings: no idle connections and no keep-alive,
    TLS verification off with one renegotiation allowed, the backoff capped
    at 10 seconds, the host-spray retry policy, and the retry count and
    the redirect policy of the options.  Its timeout is the options'
    number of seconds as a [time.Duration]: exactly that many seconds
    while the number fits 64-bit nanoseconds, wrapped around beyond. *)
Theorem built_executor_settings `{Collaborators}
        (options : HTTPOptions) (ex : HTTPExecutor) :
  NewHTTPExecutor options = Built (Some ex, None) ->
  let client := httpClient ex in
  MaxIdleConnsPerHost (transport client) = -1 /\
  DisableKeepAlives (transport client) = true /\
  InsecureSkipVerify (transport client) = true /\
  Renegotiation (transport client) = RenegotiateOnceAsClient /\
  RetryWaitMax client = 10 * Second /\
  CheckRetry client = HostSprayRetryPolicy /\
  clientTimeout client = wrapInt64 (wrapInt64 (Timeout options) * Second) /\
  (-9223372036 <= Timeout options <= 9223372036 ->
   clientTimeout client = Timeout options * Second) /\
  RetryMax client = Retries options /\
  CheckRedirect client =
    makeCheckRedirectFunc (Redirects (HTTPRequest options))
                          (MaxRedirects (HTTPRequest options)) /\
  Proxy (transport client) =
    if String.eqb (ProxyURL options) "" then None
    else parsedURL (url_Parse (ProxyURL options)).
Proof.
  unfold NewHTTPExecutor, makeHTTPClient.
  set (t0 := {| MaxIdleConnsPerHost := -1;
                Renegotiation := RenegotiateOnceAsClient;
                InsecureSkipVerify := true; DisableKeepAlives := true;
                Dial := None; Proxy := None |}).
  pose proof (installSocks_keeps options t0) as K.
  pose proof (seconds_exact (Timeout options)) as Hexact.
  destruct (installSocks options t0) as [t|site].
  - destruct (K t eq_refl) as (K1 & K2 & K3 & K4 & K5).
    destruct (String.eqb (ProxyURL options) ""); cbn [negb].
    + intros E. injection E as <-.
      cbn -[seconds wrapInt64 Second Z.mul].
      repeat split; try assumption; reflexivity.
    + destruct (url_Parse (ProxyURL options)) as [u|e];
        cbn [parsedURL parseError andThen]; [|discriminate].
      intros E. injection E as <-.
      cbn -[seconds wrapInt64 Second Z.mul].
      repeat split; try assumption; reflexivity.
  - destruct (String.eqb (ProxyURL options) ""); cbn [negb].
    + discriminate.
    + destruct (parseError (url_Parse (ProxyURL options))); discriminate.
Qed.

(** X15. [NewHTTPExecutor] returns an executor or an error, never both and
    never neither. *)
Theorem executor_or_error `{Collaborators}
        (options : HTTPOptions) (ex : option HTTPExecutor) (err : option error) :
  NewHTTPExecutor options = Built (ex, err) ->
  (ex = None <-> err <> None).
Proof.
  unfold NewHTTPExecutor.
  destruct (negb (String.eqb (ProxyURL options) "")).
  - destruct (url_Parse (ProxyURL options)) as [u|e]; cbn [parsedURL parseError].
    + destruct (makeHTTPClient (Some u) options); cbn [andThen]; [|discriminate].
      intros E. injection E as <- <-. split; [discriminate|congruence].
    + intros E. injection E as <- <-. split; [discriminate|reflexivity].
  - destruct (makeHTTPClient None options); cbn [andThen]; [|discriminate].
    intros E. injection E as <- <-. split; [discriminate|congruence].
Qed.

(** X16. The redirect policy never resumes: once it has stopped a chain at
    some number of requests, it stops it at every larger number, and every
    stop is [ErrUseLastResponse]. *)
Theorem redirect_stop_is_final {Request : Type}
        (followRedirects : bool) (maxRedirects : Z)
        (req req' : Request) (via via' : list Request) (e : error) :
  makeCheckRedirectFunc followRedirects maxRedirects req via = Some e ->
  (length via <= length via')%nat ->
  e = ErrUseLastResponse /\
  makeCheckRedirectFunc followRedirects maxRedirects req' via' =
    Some ErrUseLastResponse.
Proof.
  unfold makeCheckRedirectFunc, len. intros E Hle.
  destruct followRedirects; cbn [negb] in *.
  - destruct (maxRedirects =? 0).
    + destruct (Z.gtb_spec (Z.of_nat (length via)) 10); [|discriminate].
      destruct (Z.gtb_spec (Z.of_nat (length via')) 10); [|lia].
      split; congruence.
    + destruct (Z.gtb_spec (Z.of_nat (length via)) maxRedirects); [|discriminate].
      destruct (Z.gtb_spec (Z.of_nat (length via')) maxRedirects); [|lia].
      split; congruence.
  - split; congruence.
Qed.

(** ** More on calibration *)


(** X18. When no pointer among the matchers is nil, evaluating a response
    completes: it does not panic, whatever the condition, the matchers and
    the extractors are. *)
Theorem evalResponse_completes `{Collaborators}
        (target : string) (req : Request) (resp : Response) (body : string)
        (s : State) (vs : list (ptr * Matcher)) :
  resolve (heap s) (Matchers s) = Some vs ->
  exists s' : State, evalResponse target req resp body s = Done tt s'.
Proof.
  intros Hres.
  assert (exists exit s1,
             matcherLoop target req resp body (matchersCondition s)
                         (Matchers s) "" s = Done exit s1) as (exit & s1 & E).
  { destruct (matchersCondition s).
    - destruct (matcherLoop_and target req resp body (Matchers s) vs "" s Hres)
        as (h & s1 & E & _). eauto.
    - destruct (matcherLoop_or target req resp body (Matchers s) vs "" s Hres)
        as (h & s1 & E & _). eauto. }
  destruct exit as [|h].
  - exists s1. unfold evalResponse, bind, GetMatchersCondition, getMatchers.
    rewrite E. reflexivity.
  - destruct (evalResponse_fell_through target req resp body h s s1 E)
      as (results & s2 & _ & _ & Ev).
    rewrite Ev. destruct (_ || _); eauto.
Qed.

(** ** The further properties at concrete inputs *)

Lemma ExecuteHTTP_errors_carry_context_witness :
  let s := sampleState [] [] [] ANDCondition in
  let o := @ExecuteHTTP sampleTypes faultyCollaborators "http://t" s in
  let e := Wrap (External "timeout") "could not make http request" in
  o = Done (Some e) (finalState o) /\
  exists (pre : list Request) (req : Request) (post : list Request) (w : World),
    fst (@MakeHTTPRequest sampleTypes faultyCollaborators "http://t") =
      pre ++ req :: post /\
    sent (finalState o) = sent s ++ pre ++ [req] /\
    world (finalState o) = snd (@Do sampleTypes faultyCollaborators req w) /\
    @stepFailure sampleTypes faultyCollaborators req w e.
Proof.
  cbv zeta. split; [vm_compute; reflexivity|].
  destruct (@ExecuteHTTP_errors_carry_context sampleTypes faultyCollaborators
              "http://t" (sampleState [] [] [] ANDCondition)
              (finalState (@ExecuteHTTP sampleTypes faultyCollaborators "http://t"
                                        (sampleState [] [] [] ANDCondition)))
              (Wrap (External "timeout") "could not make http request"))
    as [(cause & Hcompile & _) | (_ & Hstep)].
  - vm_compute. reflexivity.
  - discriminate Hcompile.
  - exact Hstep.
Defined.

Lemma ExecuteHTTP_auto_matcher_panics_witness :
  let s := sampleState [sampleMatcher "auto" matchers.BodyPart ""]
                       [Some 0%nat] [] ANDCondition in
  (snd (MakeHTTPRequest "http://t") = None /\
   resolve (heap s) (Matchers s) =
     Some [(Some 0%nat, sampleMatcher "auto" matchers.BodyPart "")]) /\
  ExecuteHTTP "http://t" s = Panic "m.Target" (setWorld 2%nat s) /\
  sent (finalState (ExecuteHTTP "http://t" s)) = sent s /\
  output (finalState (ExecuteHTTP "http://t" s)) = output s.
Proof.
  cbv zeta. split; [split; reflexivity|].
  apply (@ExecuteHTTP_auto_matcher_panics sampleTypes sampleCollaborators
           "http://t"
           (sampleState [sampleMatcher "auto" matchers.BodyPart ""]
                        [Some 0%nat] [] ANDCondition)
           [(Some 0%nat, sampleMatcher "auto" matchers.BodyPart "")]);
    reflexivity.
Defined.

Lemma ExecuteHTTP_ignores_calibration_error_witness :
  let s := sampleState [sampleMatcher "auto" matchers.BodyPart ""]
                       [Some 0%nat] [] ANDCondition in
  snd (fst (@MakeHTTPRequestForAutoConfigure sampleTypes faultyCollaborators
              "http://t" 32 1%nat)) = Some (External "no template") /\
  @ExecuteHTTP sampleTypes faultyCollaborators "http://t" s =
  @mainLoop sampleTypes faultyCollaborators "http://t"
            ["http://t/a"; "http://t/down"; "http://t/b"] (setWorld 2%nat s).
Proof.
  cbv zeta. split; [reflexivity|].
  apply (@ExecuteHTTP_ignores_calibration_error sampleTypes faultyCollaborators
           "http://t"
           (sampleState [sampleMatcher "auto" matchers.BodyPart ""]
                        [Some 0%nat] [] ANDCondition)
           (External "no template")); reflexivity.
Defined.

Lemma header_text_not_built_unasked_witness :
  let s := sampleState [sampleMatcher "word" matchers.BodyPart "hello";
                        sampleMatcher "status" matchers.BodyPart ""]
                       [Some 0%nat; Some 1%nat]
                       [(extractors.BodyPart, ["x"])] ANDCondition in
  headerBuilds (finalState
    (evalResponse "http://t" "http://t/a" sampleResponse "hello" s)) =
  headerBuilds s.
Proof.
  cbv zeta.
  apply (@header_text_not_built_unasked sampleTypes sampleCollaborators
           "http://t" "http://t/a" sampleResponse "hello"
           (sampleState [sampleMatcher "word" matchers.BodyPart "hello";
                         sampleMatcher "status" matchers.BodyPart ""]
                        [Some 0%nat; Some 1%nat]
                        [(extractors.BodyPart, ["x"])] ANDCondition)
           [(Some 0%nat, sampleMatcher "word" matchers.BodyPart "hello");
            (Some 1%nat, sampleMatcher "status" matchers.BodyPart "")]);
    reflexivity.
Defined.

Lemma header_text_built_once_for_header_part_witness :
  let s := sampleState [sampleMatcher "word" matchers.HeaderPart "hello";
                        sampleMatcher "status" matchers.HeaderPart ""]
                       [Some 0%nat; Some 1%nat]
                       [(extractors.HeaderPart, ["x"]);
                        (extractors.HeaderPart, ["y"])] ANDCondition in
  headersToString (RespHeader sampleResponse) <> "" /\
  (headerBuilds (finalState
     (evalResponse "http://t" "http://t/a" sampleResponse "hello" s))
   <= headerBuilds s + 1)%nat.
Proof.
  cbv zeta. split; [discriminate|].
  apply (@header_text_built_once_for_header_part sampleTypes sampleCollaborators
           "http://t" "http://t/a" sampleResponse "hello"
           (sampleState [sampleMatcher "word" matchers.HeaderPart "hello";
                         sampleMatcher "status" matchers.HeaderPart ""]
                        [Some 0%nat; Some 1%nat]
                        [(extractors.HeaderPart, ["x"]);
                         (extractors.HeaderPart, ["y"])] ANDCondition)
           [(Some 0%nat, sampleMatcher "word" matchers.HeaderPart "hello");
            (Some 1%nat, sampleMatcher "status" matchers.HeaderPart "")]);
    try reflexivity.
  discriminate.
Defined.

Lemma or_with_extractors_one_entry_witness :
  let s := sampleState [sampleMatcher "word" matchers.BodyPart "bye"]
                       [Some 0%nat] [(extractors.BodyPart, ["x"; "x"])]
                       ORCondition in
  (matchersCondition s = ORCondition /\ Extractors s <> []) /\
  exists results s',
    evalResponse "http://t" "http://t/a" sampleResponse "hello" s = Done tt s' /\
    output s' = output s ++ [consolidatedOutput (H:=sampleTypes) "http://t/a" results].
Proof.
  cbv zeta. split; [split; [reflexivity|discriminate]|].
  apply (@or_with_extractors_one_entry sampleTypes sampleCollaborators
           "http://t" "http://t/a" sampleResponse "hello"
           (sampleState [sampleMatcher "word" matchers.BodyPart "bye"]
                        [Some 0%nat] [(extractors.BodyPart, ["x"; "x"])]
                        ORCondition)
           [(Some 0%nat, sampleMatcher "word" matchers.BodyPart "bye")]).
  - reflexivity.
  - discriminate.
  - reflexivity.
Defined.

Lemma foreign_target_matcher_is_skipped_witness :
  let other := withTarget "http://other" (sampleMatcher "word" matchers.AllPart "bye") in
  let s := sampleState [sampleMatcher "status" matchers.BodyPart ""; other]
                       [Some 0%nat; Some 1%nat] [] ANDCondition in
  (heap s !! 1%nat = Some other /\ Target other <> "" /\ Target other <> "http://t") /\
  matcherLoop "http://t" "http://t/a" sampleResponse "hello" ANDCondition
              ([Some 0%nat] ++ Some 1%nat :: []) "" s =
  matcherLoop "http://t" "http://t/a" sampleResponse "hello" ANDCondition
              ([Some 0%nat] ++ []) "" s.
Proof.
  cbv zeta. split; [repeat split; discriminate|].
  apply (@foreign_target_matcher_is_skipped sampleTypes sampleCollaborators
           "http://t" "http://t/a" sampleResponse "hello" ANDCondition 1%nat
           (withTarget "http://other" (sampleMatcher "word" matchers.AllPart "bye"))).
  - reflexivity.
  - discriminate.
  - discriminate.
Defined.

Lemma forward_proxy_parse_error_returned_witness :
  let options := {| HTTPRequest := {| Redirects := true; MaxRedirects := 0 |};
                    Timeout := 5; Retries := 1; ProxyURL := "://bad";
                    ProxySocksURL := "://proxy:1080" |} in
  (ProxyURL options <> "" /\
   url_Parse (ProxyURL options) = inr (External "missing protocol scheme")) /\
  NewHTTPExecutor options = Built (None, Some (External "missing protocol scheme")).
Proof.
  cbv zeta. split; [split; [discriminate|reflexivity]|].
  apply (@forward_proxy_parse_error_returned sampleTypes sampleCollaborators
           {| HTTPRequest := {| Redirects := true; MaxRedirects := 0 |};
              Timeout := 5; Retries := 1; ProxyURL := "://bad";
              ProxySocksURL := "://proxy:1080" |}
           (External "missing protocol scheme")).
  - discriminate.
  - reflexivity.
Defined.

Lemma socks_dialer_error_falls_back_witness :
  let options := {| HTTPRequest := {| Redirects := true; MaxRedirects := 0 |};
                    Timeout := 5; Retries := 1; ProxyURL := "";
                    ProxySocksURL := "proxy" |} in
  exists client : Client,
    @makeHTTPClient sampleTypes faultyCollaborators None options = Built client /\
    Dial (transport client) = None /\
    Proxy (transport client) = None.
Proof.
  cbv zeta.
  apply (@socks_dialer_error_falls_back sampleTypes faultyCollaborators
           {| HTTPRequest := {| Redirects := true; MaxRedirects := 0 |};
              Timeout := 5; Retries := 1; ProxyURL := "";
              ProxySocksURL := "proxy" |}
           "proxy" None (External "unknown network") None).
  - discriminate.
  - reflexivity.
  - reflexivity.
Defined.

Lemma socks_dialer_installed_witness :
  let options := {| HTTPRequest := {| Redirects := true; MaxRedirects := 0 |};
                    Timeout := 5; Retries := 1; ProxyURL := "";
                    ProxySocksURL := "proxy" |} in
  exists client : Client,
    makeHTTPClient (Some "http://forward") options = Built client /\
    Dial (transport client) = Some "proxy:1080" /\
    Proxy (transport client) = Some "http://forward".
Proof.
  cbv zeta.
  apply (@socks_dialer_installed sampleTypes sampleCollaborators
           {| HTTPRequest := {| Redirects := true; MaxRedirects := 0 |};
              Timeout := 5; Retries := 1; ProxyURL := "";
              ProxySocksURL := "proxy" |}
           "proxy" "proxy:1080" (Some "http://forward")).
  - discriminate.
  - reflexivity.
  - reflexivity.
Defined.

Lemma built_executor_settings_witness :
  let options := {| HTTPRequest := {| Redirects := true; MaxRedirects := 3 |};
                    Timeout := 5; Retries := 2; ProxyURL := "http://forward";
                    ProxySocksURL := "proxy" |} in
  exists ex : HTTPExecutor,
    NewHTTPExecutor options = Built (Some ex, None) /\
    RetryWaitMax (httpClient ex) = 10000000000 /\
    CheckRetry (httpClient ex) = HostSprayRetryPolicy /\
    clientTimeout (httpClient ex) = 5000000000 /\
    RetryMax (httpClient ex) = 2 /\
    Proxy (transport (httpClient ex)) = Some "http://forward".
Proof.
  cbv zeta.
  exists (@Build_HTTPExecutor sampleTypes
            (@Build_Client sampleTypes
               (@Build_Transport sampleTypes (-1) RenegotiateOnceAsClient
                                 true true (Some "proxy:1080")
                                 (Some "http://forward"))
               5000000000 (makeCheckRedirectFunc true 3) 10000000000 2
               HostSprayRetryPolicy)).
  split; [reflexivity|].
  destruct (@built_executor_settings sampleTypes sampleCollaborators
              {| HTTPRequest := {| Redirects := true; MaxRedirects := 3 |};
                 Timeout := 5; Retries := 2; ProxyURL := "http://forward";
                 ProxySocksURL := "proxy" |} _ eq_refl)
    as (_ & _ & _ & _ & Hwait & Hretry & _ & Htimeout & Hmax & _ & Hproxy).
  split; [exact Hwait|]. split; [exact Hretry|].
  split; [apply Htimeout; cbn; lia|].
  split; [exact Hmax | exact Hproxy].
Defined.

Lemma executor_or_error_witness :
  let options := {| HTTPRequest := {| Redirects := true; MaxRedirects := 0 |};
                    Timeout := 5; Retries := 1; ProxyURL := "://bad";
                    ProxySocksURL := "" |} in
  NewHTTPExecutor options = Built (None, Some (External "missing protocol scheme")) /\
  ((None : option HTTPExecutor) = None <->
   Some (External "missing protocol scheme") <> None).
Proof.
  cbv zeta. split; [reflexivity|].
  apply (@executor_or_error sampleTypes sampleCollaborators
           {| HTTPRequest := {| Redirects := true; MaxRedirects := 0 |};
              Timeout := 5; Retries := 1; ProxyURL := "://bad";
              ProxySocksURL := "" |}).
  reflexivity.
Defined.

Lemma redirect_stop_is_final_witness :
  (makeCheckRedirectFunc true 2 "r3" ["r0"; "r1"; "r2"] = Some ErrUseLastResponse /\
   (length ["r0"; "r1"; "r2"] <= length ["r0"; "r1"; "r2"; "r3"; "r4"])%nat) /\
  ErrUseLastResponse = ErrUseLastResponse /\
  makeCheckRedirectFunc true 2 "r5" ["r0"; "r1"; "r2"; "r3"; "r4"] =
    Some ErrUseLastResponse.
Proof.
  split; [split; [reflexivity|cbn; lia]|].
  apply (redirect_stop_is_final true 2 "r3" "r5" ["r0"; "r1"; "r2"]
           ["r0"; "r1"; "r2"; "r3"; "r4"] ErrUseLastResponse).
  - reflexivity.
  - cbn. lia.
Defined.


Lemma evalResponse_completes_witness :
  let s := sampleState [sampleMatcher "word" matchers.AllPart "hello"]
                       [Some 0%nat] [(extractors.AllPart, ["x"])] ORCondition in
  resolve (heap s) (Matchers s) =
    Some [(Some 0%nat, sampleMatcher "word" matchers.AllPart "hello")] /\
  exists s' : State,
    evalResponse "http://t" "http://t/a" sampleResponse "hello" s = Done tt s'.
Proof.
  cbv zeta. split; [reflexivity|].
  apply (@evalResponse_completes sampleTypes sampleCollaborators
           "http://t" "http://t/a" sampleResponse "hello"
           (sampleState [sampleMatcher "word" matchers.AllPart "hello"]
                        [Some 0%nat] [(extractors.AllPart, ["x"])] ORCondition)
           [(Some 0%nat, sampleMatcher "word" matchers.AllPart "hello")]).
  reflexivity.
Defined.


(** C9, as stated, fails: a matcher of type "auto" and a 32-character
    calibration request that does not compile.  [ConfigureAutoType]
    returns the wrapped compilation error; nothing is dereferenced. *)
Lemma auto_matcher_with_failing_compile_returns :
  let s := sampleState [sampleMatcher "auto" matchers.BodyPart ""]
                       [Some 0%nat] [] ANDCondition in
  let vs := [(Some 0%nat, sampleMatcher "auto" matchers.BodyPart "")] in
  resolve (heap s) (Matchers s) = Some vs /\
  existsb isAuto vs = true /\
  @ConfigureAutoType sampleTypes faultyCollaborators "http://t" s =
    Done (Some (Wrap (External "no template")
                     "could not make auto configure http request"))
         (setWorld 2%nat s) /\
  ~ (exists (site : string) (s' : State),
        @ConfigureAutoType sampleTypes faultyCollaborators "http://t" s =
        Panic site s').
Proof.
  cbv zeta. split; [reflexivity|]. split; [reflexivity|].
  split; [reflexivity|].
  intros (site & s' & Hpanic). discriminate Hpanic.
Qed.
